(** * 99backend: the public API gateway and the user service

    A shallow embedding of [public_api.py] (the aggregation gateway in
    front of the listing and user services) and of [user_service.py]
    (the user store), followed by the properties of the specification
    that concern them.

    Conventions of the embedding.
    - JSON values are the Python values [json.loads] produces; numbers
      are the integral ones (a number with a fraction or an exponent is
      outside the model).
    - A body of bytes is kept together with what [json.loads] makes of
      it, the only two ways the handlers look at a body.
    - A coroutine is a function of the calls issued so far; it returns,
      raises, or stays pending.  The backends are an oracle [fetch] from
      requests to results; the order in which a Python set is iterated
      and the order in which gathered lookups complete are parameters
      ([Sched]).
    - A response is the status and the object a handler hands to
      [write_json]; the framework's conditional-request handling after
      that point is outside the model. *)

From Stdlib Require Import ZArith List String Ascii Bool Lia Permutation.
From Stdlib Require Import Sorted DecimalString DecimalPos DecimalZ.
Import ListNotations.
Local Open Scope string_scope.
Local Open Scope Z_scope.
Set Warnings "-register-all".

(* ================================================================== *)
(** ** Python values *)
(* ================================================================== *)

Module Py.

(** What [json.loads] returns. A [JObj] is a [dict]: its keys are
    unique and kept in insertion order. *)
Inductive json : Type :=
| JNull
| JBool (b : bool)
| JInt (n : Z)
| JStr (s : string)
| JArr (items : list json)
| JObj (fields : list (string * json)).

(** What [json.loads] does with some bytes: it returns a value, or
    raises [JSONDecodeError], or (bytes that are not text) raises
    [UnicodeDecodeError]. *)
Inductive Loaded : Type :=
| Loads (j : json)
| LoadsJSONDecodeError
| LoadsUnicodeDecodeError.

(** Bytes, with the result of [json.loads] on them. *)
Record Body : Type := { raw : string; loads : Loaded }.

(** [bool(v)] *)
Definition truthy (v : json) : bool :=
  match v with
  | JNull => false
  | JBool b => b
  | JInt n => negb (n =? 0)
  | JStr s => negb (String.eqb s "")
  | JArr items => match items with [] => false | _ => true end
  | JObj fields => match fields with [] => false | _ => true end
  end.

(** The hashable JSON values, as they behave as set elements and dict
    keys. *)
Inductive key : Type :=
| KNone
| KBool (b : bool)
| KInt (n : Z)
| KStr (s : string).

(** [hash(v)] succeeds on everything but lists and dicts. *)
Definition as_key (v : json) : option key :=
  match v with
  | JNull => Some KNone
  | JBool b => Some (KBool b)
  | JInt n => Some (KInt n)
  | JStr s => Some (KStr s)
  | JArr _ | JObj _ => None
  end.

(** [a == b] on hashable values: [True == 1] and [False == 0]. *)
Definition key_num (k : key) : key :=
  match k with
  | KBool true => KInt 1
  | KBool false => KInt 0
  | _ => k
  end.

Definition py_eqb (a b : key) : bool :=
  match key_num a, key_num b with
  | KNone, KNone => true
  | KInt x, KInt y => x =? y
  | KStr s, KStr t => String.eqb s t
  | _, _ => false
  end.

(** [str(k)], as an f-string formats it. *)
Definition py_str (k : key) : string :=
  match k with
  | KNone => "None"
  | KBool true => "True"
  | KBool false => "False"
  | KInt n => NilZero.string_of_int (Z.to_int n)
  | KStr s => s
  end.

(** *** dict *)

Section Dict.
Context {K V : Type} (eqb : K -> K -> bool).

(** [d.get(k)] *)
Fixpoint dict_get (d : list (K * V)) (k : K) : option V :=
  match d with
  | [] => None
  | (k', v) :: rest => if eqb k' k then Some v else dict_get rest k
  end.

(** [d[k] = v]: an existing key keeps its place, a new one goes last. *)
Fixpoint dict_set (d : list (K * V)) (k : K) (v : V) : list (K * V) :=
  match d with
  | [] => [(k, v)]
  | (k', v') :: rest =>
      if eqb k' k then (k', v) :: rest else (k', v') :: dict_set rest k v
  end.

(** [del d[k]]: the entry of [k] goes (keys being unique, there is
    one); [None] is the [KeyError]. *)
Definition dict_del (d : list (K * V)) (k : K) : option (list (K * V)) :=
  match dict_get d k with
  | Some _ => Some (filter (fun kv => negb (eqb (fst kv) k)) d)
  | None => None
  end.
End Dict.

(** *** set *)

(** [s.add(k)]: an element equal to one already there is not added. *)
Definition set_add (s : list key) (k : key) : list key :=
  if existsb (fun k' => py_eqb k' k) s then s else s ++ [k].

(** The elements of [{k for k in ks}], in insertion order. *)
Definition set_of (ks : list key) : list key := fold_left set_add ks [].

(** *** bytes in an f-string: [repr] of a [bytes] object *)

Definition dquote : ascii := ascii_of_nat 34.
Definition squote : ascii := ascii_of_nat 39.
Definition bslash : ascii := ascii_of_nat 92.

Definition hex_digit (n : nat) : ascii :=
  nth n (list_ascii_of_string "0123456789abcdef") "0"%char.

Fixpoint contains (c : ascii) (s : string) : bool :=
  match s with
  | EmptyString => false
  | String c' rest => Ascii.eqb c' c || contains c rest
  end.

Definition escape_byte (quote c : ascii) : string :=
  let n := nat_of_ascii c in
  if Ascii.eqb c quote || Ascii.eqb c bslash then String bslash (String c "")
  else if Nat.eqb n 9 then String bslash "t"
  else if Nat.eqb n 10 then String bslash "n"
  else if Nat.eqb n 13 then String bslash "r"
  else if Nat.ltb n 32 || Nat.leb 127 n then
    String bslash
      (String "x" (String (hex_digit (n / 16)) (String (hex_digit (n mod 16)) "")))
  else String c "".

Fixpoint escape_bytes (quote : ascii) (s : string) : string :=
  match s with
  | EmptyString => EmptyString
  | String c rest => escape_byte quote c ++ escape_bytes quote rest
  end.

Definition bytes_repr (s : string) : string :=
  let quote := if contains squote s && negb (contains dquote s)
               then dquote else squote in
  String "b" (String quote (escape_bytes quote s ++ String quote "")).

End Py.

Export Py.


(* ================================================================== *)
(** ** The HTTP client, the coroutines and the request handler base *)
(* ================================================================== *)

Module Tornado.

Inductive Method : Type := GET | POST.

(** A call handed to [http_client.fetch]: the URL up to the query
    string, the parameters [urlencode] puts in the query string, and
    the form [urlencode] makes the body of a POST. Percent-encoding is
    not modelled: parameters and form fields are kept as pairs. *)
Record Request : Type := {
  method : Method;
  url : string;
  query : list (string * string);
  form : option (list (string * json))
}.

(** [tornado.httpclient.HTTPResponse] *)
Record HTTPResponse : Type := { code : Z; body : Body }.

(** Exceptions the handlers tell apart: [except HTTPClientError],
    [except json.JSONDecodeError], and every other exception, which
    only [except Exception] catches, named by its class. *)
Inductive Exn : Type :=
| HTTPClientError (code : Z) (message : string) (response : option HTTPResponse)
| JSONDecodeError
| PyError (cls : string).

(** Straight-line code that may raise. *)
Definition Result (A : Type) : Type := (Exn + A)%type.

(** What a fetch settles to: the response, or the exception raised
    (the value [asyncio.gather(..., return_exceptions=True)] puts in
    its result list). *)
Definition FetchResult : Type := Result HTTPResponse.

(** A coroutine: from the calls issued so far to the calls issued and
    how it ended. [Pending]: it awaits something that never settles. *)
Inductive Outcome (A : Type) : Type :=
| Returned (a : A)
| Raised (e : Exn)
| Pending.
Arguments Returned {A} a.
Arguments Raised {A} e.
Arguments Pending {A}.

Definition Trace : Type := list Request.
Definition M (A : Type) : Type := Trace -> Trace * Outcome A.

Class Monad (T : Type -> Type) : Type := {
  ret : forall {A}, A -> T A;
  bind : forall {A B}, T A -> (A -> T B) -> T B
}.

#[export] Instance Monad_Result : Monad Result := {
  ret := fun A a => inr a;
  bind := fun A B c k => match c with inl e => inl e | inr a => k a end
}.

#[export] Instance Monad_M : Monad M := {
  ret := fun A a t => (t, Returned a);
  bind := fun A B c k t =>
    match c t with
    | (t', Returned a) => k a t'
    | (t', Raised e) => (t', Raised e)
    | (t', Pending) => (t', Pending)
    end
}.

Declare Scope monad_scope.
Notation "x <- c1 ;; c2" := (bind c1 (fun x => c2))
  (at level 61, c1 at next level, right associativity) : monad_scope.
Local Open Scope monad_scope.

Definition raise {A} (e : Exn) : Result A := inl e.

(** Straight-line code run inside a coroutine. *)
Definition lift {A} (c : Result A) : M A :=
  fun t => (t, match c with inl e => Raised e | inr a => Returned a end).

(** [try: body  except ...: handler e]. Only the body is guarded. *)
Definition try_except {A} (body : M A) (handler : Exn -> M A) : M A :=
  fun t =>
    match body t with
    | (t', Raised e) => handler e t'
    | r => r
    end.

(** *** http.HTTPStatus *)

(** The members of Python's [http.HTTPStatus], with their phrases. *)
Definition HTTPStatus_members : list (Z * string) :=
  [ (100, "Continue"); (101, "Switching Protocols"); (102, "Processing");
    (103, "Early Hints");
    (200, "OK"); (201, "Created"); (202, "Accepted");
    (203, "Non-Authoritative Information"); (204, "No Content");
    (205, "Reset Content"); (206, "Partial Content"); (207, "Multi-Status");
    (208, "Already Reported"); (226, "IM Used");
    (300, "Multiple Choices"); (301, "Moved Permanently"); (302, "Found");
    (303, "See Other"); (304, "Not Modified"); (305, "Use Proxy");
    (307, "Temporary Redirect"); (308, "Permanent Redirect");
    (400, "Bad Request"); (401, "Unauthorized"); (402, "Payment Required");
    (403, "Forbidden"); (404, "Not Found"); (405, "Method Not Allowed");
    (406, "Not Acceptable"); (407, "Proxy Authentication Required");
    (408, "Request Timeout"); (409, "Conflict"); (410, "Gone");
    (411, "Length Required"); (412, "Precondition Failed");
    (413, "Request Entity Too Large"); (414, "Request-URI Too Long");
    (415, "Unsupported Media Type");
    (416, "Requested Range Not Satisfiable"); (417, "Expectation Failed");
    (418, "I'm a Teapot"); (421, "Misdirected Request");
    (422, "Unprocessable Entity"); (423, "Locked");
    (424, "Failed Dependency"); (425, "Too Early");
    (426, "Upgrade Required"); (428, "Precondition Required");
    (429, "Too Many Requests"); (431, "Request Header Fields Too Large");
    (451, "Unavailable For Legal Reasons");
    (500, "Internal Server Error"); (501, "Not Implemented");
    (502, "Bad Gateway"); (503, "Service Unavailable");
    (504, "Gateway Timeout"); (505, "HTTP Version Not Supported");
    (506, "Variant Also Negotiates"); (507, "Insufficient Storage");
    (508, "Loop Detected"); (510, "Not Extended");
    (511, "Network Authentication Required") ].

(** [HTTPStatus(status_code).phrase]; [None] is the [ValueError] raised
    for a number that is not a member. *)
Definition HTTPStatus_phrase (status_code : Z) : option string :=
  dict_get Z.eqb HTTPStatus_members status_code.

(** *** BaseHandler *)

(** What the client receives: the status set and the object dumped. *)
Record Response : Type := { status : Z; payload : json }.

(** [RequestHandler.finish] asserts that nothing was written when the
    status is 204, 304 or 1xx. *)
Definition no_body_status (s : Z) : bool :=
  (s =? 204) || (s =? 304) || ((100 <=? s) && (s <? 200)).

(** [BaseHandler.write_json(obj, status_code)], the same in both
    services. The dumped object is never empty, so the assertion of
    [finish] fails exactly on the statuses that take no body. *)
Definition write_json (obj : json) (status_code : Z) : Result Response :=
  if no_body_status status_code then raise (PyError "AssertionError")
  else ret {| status := status_code; payload := obj |}.

Definition error_envelope (reason : string) : json :=
  JObj [("result", JBool false); ("errors", JArr [JStr reason])].

(** [BaseHandler.write_error(status_code, **kwargs)], [reason] being
    [kwargs.get("reason")]. The default of that [get],
    [HTTPStatus(status_code).phrase], is an argument of the call and is
    evaluated whether or not a reason was passed. *)
Definition write_error (status_code : Z) (reason : option string) : Result Response :=
  match HTTPStatus_phrase status_code with
  | None => raise (PyError "ValueError")
  | Some phrase =>
      write_json
        (error_envelope (match reason with Some r => r | None => phrase end))
        status_code
  end.

(** [RequestHandler._execute]: run the handler; an exception that
    leaves it is answered with [send_error(500)], which calls
    [write_error(500)] without a reason. [None]: no response is sent
    (the handler is pending). *)
Definition execute (handler : M Response) : Trace * option Response :=
  match handler [] with
  | (t, Returned r) => (t, Some r)
  | (t, Raised _) =>
      (t, match write_error 500 None with inr r => Some r | inl _ => None end)
  | (t, Pending) => (t, None)
  end.

(** A synchronous handler under [_execute]. *)
Definition answer (r : Result Response) : option Response :=
  snd (execute (fun t => (t, match r with inl e => Raised e | inr a => Returned a end))).

(** *** Scheduling *)

(** The two things the event loop and the interpreter decide: the order
    in which a set is iterated (some order of its elements) and the
    order in which [n] tasks started together settle (each of them,
    once). *)
Record Sched : Type := {
  set_order : list key -> list key;
  set_order_perm : forall s, Permutation (set_order s) s;
  completion : nat -> list nat;
  completion_perm : forall n, Permutation (completion n) (seq 0 n)
}.

Fixpoint set_nth {A} (i : nat) (x : A) (l : list A) : list A :=
  match l, i with
  | [], _ => []
  | _ :: rest, O => x :: rest
  | y :: rest, S j => y :: set_nth j x rest
  end.

Fixpoint collect {A} (slots : list (option A)) : option (list A) :=
  match slots with
  | [] => Some []
  | None :: _ => None
  | Some a :: rest => option_map (cons a) (collect rest)
  end.

Section Client.
Variable fetch : Request -> FetchResult.
Variable sched : Sched.

(** [http_client.fetch(request)]: the call is issued; the future it
    returns is identified by its request. *)
Definition http_client_fetch (r : Request) : M Request :=
  fun t => ((t ++ [r])%list, Returned r).

(** [await future] *)
Definition await (task : Request) : M HTTPResponse := lift (fetch task).

(** Tasks settle in completion order; the result of task [i] goes to
    slot [i]. *)
Fixpoint settle (tasks : list Request) (order : list nat)
    (slots : list (option FetchResult)) : list (option FetchResult) :=
  match order with
  | [] => slots
  | i :: rest =>
      settle tasks rest
        (match nth_error tasks i with
         | Some r => set_nth i (Some (fetch r)) slots
         | None => slots
         end)
  end.

(** [await asyncio.gather] of the tasks, with [return_exceptions=True]: resumes
    when every slot is filled, with the slots in task order. *)
Definition gather (tasks : list Request) : M (list FetchResult) :=
  fun t =>
    let n := List.length tasks in
    (t, match collect (settle tasks (completion sched n) (repeat None n)) with
        | Some results => Returned results
        | None => Pending
        end).
End Client.

End Tornado.

Export Tornado.
Local Open Scope monad_scope.

(* ================================================================== *)
(** ** public_api.py *)
(* ================================================================== *)

Module PublicApi.

(** *** The Python operations the handlers use *)

Fixpoint mapM {T} `{Monad T} {A B} (f : A -> T B) (l : list A) : T (list B) :=
  match l with
  | [] => ret []
  | a :: rest => b <- f a ;; bs <- mapM f rest ;; ret (b :: bs)
  end.

(** [for x in l: acc = f(acc, x)] *)
Fixpoint foldM {T} `{Monad T} {A B} (f : B -> A -> T B) (l : list A) (acc : B) : T B :=
  match l with
  | [] => ret acc
  | a :: rest => acc' <- f acc a ;; foldM f rest acc'
  end.

(** [json.loads(b)] *)
Definition json_loads (b : Body) : Result json :=
  match loads b with
  | Loads j => ret j
  | LoadsJSONDecodeError => raise JSONDecodeError
  | LoadsUnicodeDecodeError => raise (PyError "UnicodeDecodeError")
  end.

(** [obj.get(k, default)]: only a dict has the method. *)
Definition py_get (obj : json) (k : string) (default : json) : Result json :=
  match obj with
  | JObj d =>
      ret (match dict_get String.eqb d k with Some v => v | None => default end)
  | _ => raise (PyError "AttributeError")
  end.

(** [obj[k]] with a string [k]. *)
Definition py_getitem (obj : json) (k : string) : Result json :=
  match obj with
  | JObj d =>
      match dict_get String.eqb d k with
      | Some v => ret v
      | None => raise (PyError "KeyError")
      end
  | _ => raise (PyError "TypeError")
  end.

(** [for x in obj]: the items of a list, the keys of a dict, the
    characters of a string. *)
Definition py_iter (obj : json) : Result (list json) :=
  match obj with
  | JArr items => ret items
  | JObj d => ret (map (fun kv => JStr (fst kv)) d)
  | JStr s => ret (map (fun c => JStr (String c "")) (list_ascii_of_string s))
  | _ => raise (PyError "TypeError")
  end.

(** Using [v] as a set element or as a dict key. *)
Definition hash_key (v : json) : Result key :=
  match as_key v with
  | Some k => ret k
  | None => raise (PyError "TypeError")
  end.

(** [urllib.parse.urlencode(q)]: the items of a mapping; an empty
    sequence gives the empty form; anything else JSON can hold is
    refused. *)
Definition urlencode (q : json) : Result (list (string * json)) :=
  match q with
  | JObj d => ret d
  | JArr [] => ret []
  | JStr EmptyString => ret []
  | _ => raise (PyError "TypeError")
  end.

(** *** Options and routing *)

(** The keys of [port_map]. *)
Inductive Service : Type := listing | user.

(** [tornado.options.options] *)
Record Options : Type := {
  listing_service_port : Z;
  user_service_port : Z
}.

Definition default_options : Options :=
  {| listing_service_port := 6000; user_service_port := 7000 |}.

(** The arguments of [GET /public-api/listings], as [get_argument]
    returns them; [None] when the argument is not given. *)
Record ListingsQuery : Type := {
  page_num : option string;
  page_size : option string;
  user_id : option string
}.

Definition users_map_t : Type := list (key * json).

(** [l["user_id"]] as an element of the set comprehension. *)
Definition user_id_of (l : json) : Result key :=
  v <- py_getitem l "user_id" ;; hash_key v.

(** One turn of the loop over [user_responses]. *)
Definition absorb (users_map : users_map_t) (res : FetchResult) : Result users_map_t :=
  match res with
  | inl _ => ret users_map
  | inr response =>
      data <- json_loads (body response) ;;
      user_data <- py_get data "user" JNull ;;
      if truthy user_data then
        id <- py_getitem user_data "id" ;;
        k <- hash_key id ;;
        ret (dict_set py_eqb users_map k user_data)
      else ret users_map
  end.

(** One turn of the loop over [listings]:
    [listing["user"] = users_map.get(listing["user_id"])] and
    [del listing["user_id"]]. *)
Definition enrich (users_map : users_map_t) (l : json) : Result json :=
  uid <- py_getitem l "user_id" ;;
  k <- hash_key uid ;;
  let found := match dict_get py_eqb users_map k with
               | Some u => u
               | None => JNull
               end in
  match l with
  | JObj d =>
      match dict_del String.eqb (dict_set String.eqb d "user" found) "user_id" with
      | Some d' => ret (JObj d')
      | None => raise (PyError "KeyError")
      end
  | _ => raise (PyError "TypeError")
  end.

(** [e.response.body if e.response else e.message], in an f-string. *)
Definition upstream_detail (message : string) (response : option HTTPResponse) : string :=
  match response with
  | Some r => bytes_repr (raw (body r))
  | None => message
  end.

(** The [except] clauses of [PublicListingsHandler.get]. *)
Definition get_except (e : Exn) : Result Response :=
  match e with
  | HTTPClientError c message response =>
      write_error c
        (Some ("Upstream service error: " ++ upstream_detail message response))
  | _ => write_error 500 (Some "An internal server error occurred.")
  end.

(** The [except] clauses of the two POST handlers, [service] being the
    word their messages start with. *)
Definition post_except (service : string) (e : Exn) : Result Response :=
  match e with
  | JSONDecodeError => write_error 400 (Some "Invalid JSON format.")
  | HTTPClientError c message response =>
      write_error c
        (Some (service ++ " service error: " ++ upstream_detail message response))
  | PyError _ => write_error 500 (Some "An internal server error occurred.")
  end.

Section Handlers.
Variable options : Options.
Variable fetch : Request -> FetchResult.
Variable sched : Sched.

(** [BaseHandler.get_service_url] *)
Definition get_service_url (service : Service) (path : string) : string :=
  let port := match service with
              | listing => listing_service_port options
              | user => user_service_port options
              end in
  "http://localhost:" ++ py_str (KInt port) ++ path.

Definition query_params (q : ListingsQuery) : list (string * string) :=
  ([ ("page_num", match page_num q with Some v => v | None => "1" end);
     ("page_size", match page_size q with Some v => v | None => "10" end) ]
   ++ match user_id q with
      | Some v => if String.eqb v "" then [] else [("user_id", v)]
      | None => []
      end)%list.

(** The primary call of [PublicListingsHandler.get]. *)
Definition listings_request (q : ListingsQuery) : Request :=
  {| method := GET; url := get_service_url listing "/listings";
     query := query_params q; form := None |}.

(** The lookup of one user id. *)
Definition user_request (uid : key) : Request :=
  {| method := GET; url := get_service_url user "/users/" ++ py_str uid;
     query := []; form := None |}.

(** [PublicListingsHandler.get] *)
Definition PublicListingsHandler_get (q : ListingsQuery) : M Response :=
  try_except
    (task <- http_client_fetch (listings_request q) ;;
     listing_response <- await fetch task ;;
     data <- lift (json_loads (body listing_response)) ;;
     listings <- lift (py_get data "listings" (JArr [])) ;;
     if negb (truthy listings) then
       lift (write_json (JObj [("result", JBool true); ("listings", JArr [])]) 200)
     else
       items <- lift (py_iter listings) ;;
       ids <- lift (mapM user_id_of items) ;;
       let user_ids := set_order sched (set_of ids) in
       user_tasks <- mapM (fun uid => http_client_fetch (user_request uid)) user_ids ;;
       user_responses <- gather fetch sched user_tasks ;;
       users_map <- lift (foldM absorb user_responses []) ;;
       enriched <- lift (mapM (enrich users_map) items) ;;
       lift (write_json
               (JObj [("result", JBool true); ("listings", JArr enriched)]) 200))
    (fun e => lift (get_except e)).

Definition create_listing_request (post_data : list (string * json)) : Request :=
  {| method := POST; url := get_service_url listing "/listings";
     query := []; form := Some post_data |}.

Definition create_user_request (post_data : list (string * json)) : Request :=
  {| method := POST; url := get_service_url user "/users";
     query := []; form := Some post_data |}.

(** [PublicListingsHandler.post] *)
Definition PublicListingsHandler_post (request_body : Body) : M Response :=
  try_except
    (parsed <- lift (json_loads request_body) ;;
     post_data <- lift (urlencode parsed) ;;
     task <- http_client_fetch (create_listing_request post_data) ;;
     response <- await fetch task ;;
     relayed <- lift (json_loads (body response)) ;;
     lift (write_json relayed (code response)))
    (fun e => lift (post_except "Listing" e)).

(** [PublicUsersHandler.post] *)
Definition PublicUsersHandler_post (request_body : Body) : M Response :=
  try_except
    (parsed <- lift (json_loads request_body) ;;
     name <- lift (py_get parsed "name" JNull) ;;
     if negb (truthy name) then
       lift (write_error 400 (Some "JSON body must contain a 'name' key."))
     else
       post_data <- lift (urlencode (JObj [("name", name)])) ;;
       task <- http_client_fetch (create_user_request post_data) ;;
       response <- await fetch task ;;
       relayed <- lift (json_loads (body response)) ;;
       lift (write_json relayed (code response)))
    (fun e => lift (post_except "User" e)).

(** The three operations of the gateway, as served. *)
Definition getListings (q : ListingsQuery) : Trace * option Response :=
  execute (PublicListingsHandler_get q).
Definition createListing (request_body : Body) : Trace * option Response :=
  execute (PublicListingsHandler_post request_body).
Definition createUser (request_body : Body) : Trace * option Response :=
  execute (PublicUsersHandler_post request_body).
End Handlers.

End PublicApi.

Export PublicApi.

(* ================================================================== *)
(** ** user_service.py *)
(* ================================================================== *)

Module UserService.

(** A row of the [users] table. *)
Record Row : Type := {
  id : Z;
  name : string;
  created_at : Z;
  updated_at : Z
}.

(** The database: the rows of [users] in rowid order, and the largest
    rowid handed out so far (what AUTOINCREMENT continues from). *)
Record Db : Type := { users : list Row; last_rowid : Z }.

(** [init_db] on a new database. *)
Definition init_db : Db := {| users := []; last_rowid := 0 |}.

(** A query argument given to [int()]: not in the request, or in it,
    with the integer [int()] reads ([None]: it raises [ValueError]). *)
Inductive IntArg : Type :=
| ArgMissing
| ArgGiven (value : option Z).

(** [int(self.get_argument(name, default))] *)
Definition int_argument (a : IntArg) (default : Z) : Result Z :=
  match a with
  | ArgMissing => ret default
  | ArgGiven (Some n) => ret n
  | ArgGiven None => raise (PyError "ValueError")
  end.

(** What sqlite3 binds as an INTEGER; beyond it, [OverflowError]. *)
Definition sqlite_int (n : Z) : bool := (- 2 ^ 63 <=? n) && (n <? 2 ^ 63).

Definition bind_int (n : Z) : Result Z :=
  if sqlite_int n then ret n else raise (PyError "OverflowError").

(** [ORDER BY created_at DESC]; rows with equal keys stay in table
    order. *)
Fixpoint insert_desc (r : Row) (sorted : list Row) : list Row :=
  match sorted with
  | [] => [r]
  | r' :: rest =>
      if created_at r' <=? created_at r then r :: sorted
      else r' :: insert_desc r rest
  end.

Definition order_by_created_at_desc (rows : list Row) : list Row :=
  fold_right insert_desc [] rows.

(** [LIMIT ? OFFSET ?] as SQLite reads them: a negative limit is no
    limit, a negative offset is no offset. *)
Definition limit_offset {A} (limit offset : Z) (rows : list A) : list A :=
  let rest := skipn (Z.to_nat offset) rows in
  if limit <? 0 then rest else firstn (Z.to_nat limit) rest.

(** [SELECT * FROM users ORDER BY created_at DESC LIMIT ? OFFSET ?] *)
Definition select_page (db : Db) (limit offset : Z) : Result (list Row) :=
  l <- bind_int limit ;;
  o <- bind_int offset ;;
  ret (limit_offset l o (order_by_created_at_desc (users db))).

(** [{field: row[field] for field in fields}] *)
Definition row_json (r : Row) : json :=
  JObj [ ("id", JInt (id r)); ("name", JStr (name r));
         ("created_at", JInt (created_at r));
         ("updated_at", JInt (updated_at r)) ].

(** [UsersHandler.get] *)
Definition UsersHandler_get (db : Db) (page_num page_size : IntArg) : Result Response :=
  match (pn <- int_argument page_num 1 ;;
         ps <- int_argument page_size 10 ;;
         ret (pn, ps)) with
  | inl _ => write_error 400 (Some "Invalid page_num or page_size.")
  | inr (pn, ps) =>
      let limit := ps in
      let offset := (pn - 1) * ps in
      results <- select_page db limit offset ;;
      write_json
        (JObj [("result", JBool true); ("users", JArr (map row_json results))])
        200
  end.

(** [INSERT INTO users (name, created_at, updated_at) VALUES (?, ?, ?)]
    and [cursor.lastrowid]. *)
Definition insert_user (db : Db) (n : string) (created updated : Z) : Result (Db * Z) :=
  c <- bind_int created ;;
  u <- bind_int updated ;;
  rowid <- bind_int (last_rowid db + 1) ;;
  ret ({| users := (users db ++ [ {| id := rowid; name := n;
                                     created_at := c; updated_at := u |} ])%list;
          last_rowid := rowid |}, rowid).

(** [UsersHandler.post]; [time_now] is [int(time.time() * 1e6)], the
    clock read once. *)
Definition UsersHandler_post (db : Db) (name_arg : option string) (time_now : Z)
  : Db * Result Response :=
  match name_arg with
  | None | Some EmptyString => (db, write_error 400 (Some "name parameter is required."))
  | Some n =>
      match insert_user db n time_now time_now with
      | inr (db', lastrowid) =>
          let user :=
            JObj [ ("id", JInt lastrowid); ("name", JStr n);
                   ("created_at", JInt time_now);
                   ("updated_at", JInt time_now) ] in
          (db', write_json (JObj [("result", JBool true); ("user", user)]) 201)
      | inl _ => (db, write_error 500 (Some "Internal server error."))
      end
  end.

(** [UserHandler.get]; [user_id] is what [int()] reads from the digits
    the route matched ([None]: it raises [ValueError]). *)
Definition UserHandler_get (db : Db) (user_id : option Z) : Result Response :=
  match user_id with
  | None => write_error 400 (Some "Invalid user ID format.")
  | Some user_id =>
      uid <- bind_int user_id ;;
      match find (fun r => id r =? uid) (users db) with
      | Some row =>
          write_json (JObj [("result", JBool true); ("user", row_json row)]) 200
      | None =>
          write_error 404
            (Some ("User with id " ++ py_str (KInt user_id) ++ " not found."))
      end
  end.

(** The requests the service takes, and the service as a machine over
    its database. *)
Inductive Call : Type :=
| GetUsers (page_num page_size : IntArg)
| PostUsers (name_arg : option string) (time_now : Z)
| GetUser (user_id : option Z).

Definition handle (db : Db) (c : Call) : Db * option Response :=
  match c with
  | GetUsers pn ps => (db, answer (UsersHandler_get db pn ps))
  | PostUsers n t =>
      let '(db', r) := UsersHandler_post db n t in (db', answer r)
  | GetUser uid => (db, answer (UserHandler_get db uid))
  end.

Definition run (db : Db) (calls : list Call) : Db :=
  fold_left (fun d c => fst (handle d c)) calls db.

End UserService.

Export UserService.

(* ================================================================== *)
(** ** Concrete backends and schedules *)
(* ================================================================== *)

Module Worlds.

(** Sets iterate in insertion order and tasks settle in the order they
    were started. *)
Definition sched_fifo : Sched :=
  {| set_order := fun s => s;
     set_order_perm := fun s => Permutation_refl s;
     completion := fun n => seq 0 n;
     completion_perm := fun n => Permutation_refl (seq 0 n) |}.

(** Sets iterate backwards and the task started last settles first. *)
Definition sched_lifo : Sched :=
  {| set_order := fun s => rev s;
     set_order_perm := fun s => Permutation_sym (Permutation_rev s);
     completion := fun n => rev (seq 0 n);
     completion_perm := fun n => Permutation_sym (Permutation_rev (seq 0 n)) |}.

Definition q (s : string) : string := String dquote (s ++ String dquote "").

Definition no_arguments : ListingsQuery :=
  {| page_num := None; page_size := None; user_id := None |}.

Definition listing_of (lid uid : Z) (title : string) : json :=
  JObj [("id", JInt lid); ("user_id", JInt uid); ("title", JStr title)].

Definition user_of (uid : Z) (n : string) : json :=
  JObj [("id", JInt uid); ("name", JStr n);
        ("created_at", JInt 1700000000000000);
        ("updated_at", JInt 1700000000000000)].

(** A body that decodes to [j]. Its bytes are not spelled out: [raw]
    carries a label in their place, and no handler looks at the bytes
    of a body it decodes. *)
Definition json_body (text : string) (j : json) : Body :=
  {| raw := text; loads := Loads j |}.

Definition plain_body (text : string) : Body :=
  {| raw := text; loads := LoadsJSONDecodeError |}.

Definition ok (b : Body) : FetchResult := inr {| code := 200; body := b |}.

Definition not_found : FetchResult :=
  inl (HTTPClientError 404 "Not Found"
         (Some {| code := 404; body := plain_body "no such user" |})).

(** Three listings, two of them of user 7; user 7 exists, user 9 does
    not. *)
Definition page_7_9_7 : list json :=
  [listing_of 1 7 "flat"; listing_of 2 9 "house"; listing_of 3 7 "room"].

Definition listings_body (page : list json) : Body :=
  json_body "listings" (JObj [("result", JBool true); ("listings", JArr page)]).

Definition user_body (u : json) : Body :=
  json_body "user" (JObj [("result", JBool true); ("user", u)]).

Definition fetch_7_9_7 (r : Request) : FetchResult :=
  if String.eqb (url r) "http://localhost:6000/listings" then
    ok (listings_body page_7_9_7)
  else if String.eqb (url r) "http://localhost:7000/users/7" then
    ok (user_body (user_of 7 "Ann"))
  else not_found.

(** The listing service has nothing to show. *)
Definition fetch_empty (r : Request) : FetchResult :=
  ok (listings_body []).

(** The listing service answers with the given status and text. *)
Definition fetch_status (s : Z) (phrase text : string) (r : Request) : FetchResult :=
  inl (HTTPClientError s phrase (Some {| code := s; body := plain_body text |})).

(** Nothing listens on the port. *)
Definition fetch_refused (r : Request) : FetchResult :=
  inl (PyError "ConnectionRefusedError").

(** The request times out: the client's own error, status 599, no
    response. *)
Definition fetch_timeout (r : Request) : FetchResult :=
  inl (HTTPClientError 599 "Timeout while connecting" None).

(** Listings of users 7 and 9; the lookup of 7 is answered without a
    user, the lookup of 9 with the record of user 7. *)
Definition fetch_crossed (r : Request) : FetchResult :=
  if String.eqb (url r) "http://localhost:6000/listings" then
    ok (listings_body [listing_of 1 7 "flat"; listing_of 2 9 "house"])
  else if String.eqb (url r) "http://localhost:7000/users/7" then
    ok (json_body "result" (JObj [("result", JBool true)]))
  else ok (user_body (user_of 7 "Ann")).

(** One listing of user 7, whose lookup is answered with a JSON array. *)
Definition fetch_array (r : Request) : FetchResult :=
  if String.eqb (url r) "http://localhost:6000/listings" then
    ok (listings_body [listing_of 1 7 "flat"])
  else ok (json_body "[]" (JArr [])).

(** Listings of users 7 and 9; the lookup of 7 is answered 200 with
    an object that has no user, the lookup of 9 with user 9. *)
Definition fetch_userless (r : Request) : FetchResult :=
  if String.eqb (url r) "http://localhost:6000/listings" then
    ok (listings_body [listing_of 1 7 "flat"; listing_of 2 9 "house"])
  else if String.eqb (url r) "http://localhost:7000/users/7" then
    ok (json_body "result" (JObj [("result", JBool true)]))
  else ok (user_body (user_of 9 "Bob")).

(** The same backends, the lookup of 7 failing with 404. *)
Definition fetch_userless_404 (r : Request) : FetchResult :=
  if String.eqb (url r) "http://localhost:6000/listings" then
    ok (listings_body [listing_of 1 7 "flat"; listing_of 2 9 "house"])
  else if String.eqb (url r) "http://localhost:7000/users/7" then not_found
  else ok (user_body (user_of 9 "Bob")).

(** A body of one byte, 0xff, which is not UTF-8. *)
Definition binary_body : Body :=
  {| raw := String (ascii_of_nat 255) EmptyString; loads := LoadsUnicodeDecodeError |}.

(** The listing service returns the given page; the user service
    knows no user. *)
Definition fetch_page (page : list json) (r : Request) : FetchResult :=
  if String.eqb (url r) "http://localhost:6000/listings" then
    ok (listings_body page)
  else not_found.

Definition row_of (i : Z) (n : string) (t : Z) : Row :=
  {| id := i; name := n; created_at := t; updated_at := t |}.

End Worlds.

(* ================================================================== *)
(** ** Notions used in the statements *)
(* ================================================================== *)

(** How straight-line code ends a coroutine. *)
Definition outcome_of {A} (c : Result A) : Outcome A :=
  match c with inl e => Raised e | inr a => Returned a end.

(** Straight-line code under the [try] of [PublicListingsHandler.get]. *)
Definition guarded (c : Result Response) : Outcome Response :=
  match c with inr r => Returned r | inl e => outcome_of (get_except e) end.

(** What [_execute] sends for an outcome. *)
Definition served (o : Outcome Response) : option Response :=
  match o with
  | Returned r => Some r
  | Raised _ =>
      Some {| status := 500; payload := error_envelope "Internal Server Error" |}
  | Pending => None
  end.

Definition success_payload (listings : json) : json :=
  JObj [("result", JBool true); ("listings", listings)].

(** [k] is, in Python's sense of [==], one of [l]. *)
Definition mem (k : key) (l : list key) : bool :=
  existsb (fun k' => py_eqb k' k) l.

(** No two elements of [l] are equal in Python's sense. *)
Fixpoint distinct (l : list key) : bool :=
  match l with
  | [] => true
  | k :: rest => negb (mem k rest) && distinct rest
  end.

(** The field [k] of a JSON object. *)
Definition field (obj : json) (k : string) : option json :=
  match obj with
  | JObj d => dict_get String.eqb d k
  | _ => None
  end.

(** The listing [l] is an object whose [user_id] is the hashable value
    [uid]. *)
Definition owner_is (l : json) (uid : key) : Prop :=
  exists d v, l = JObj d /\ dict_get String.eqb d "user_id" = Some v
              /\ as_key v = Some uid.

(** A lookup that failed: the fetch raised, be it for a status outside
    2xx or for a fault of the transport. *)
Definition lookup_failed (res : FetchResult) : bool :=
  match res with inl _ => true | inr _ => false end.

(** The user backend's contract for [GET /users/{id}]: the answer to
    the lookup of [uid] is an object whose [user] is a record with that
    id. *)
Definition contract_user (uid : key) (res : FetchResult) : option json :=
  match res with
  | inl _ => None
  | inr resp =>
      match loads (body resp) with
      | Loads (JObj d) =>
          match dict_get String.eqb d "user" with
          | Some (JObj fields) =>
              match dict_get String.eqb fields "id" with
              | Some v =>
                  match as_key v with
                  | Some k => if py_eqb k uid then Some (JObj fields) else None
                  | None => None
                  end
              | None => None
              end
          | _ => None
          end
      | _ => None
      end
  end.

(** What a settled lookup brings to [users_map]: nothing, or a record
    under a key. *)
Definition entry_of (res : FetchResult) : Result (option (key * json)) :=
  match res with
  | inl _ => ret None
  | inr response =>
      data <- json_loads (body response) ;;
      user_data <- py_get data "user" JNull ;;
      if truthy user_data then
        id <- py_getitem user_data "id" ;;
        k <- hash_key id ;;
        ret (Some (k, user_data))
      else ret None
  end.

Definition add_entry (m : users_map_t) (e : option (key * json)) : users_map_t :=
  match e with
  | Some (k, u) => dict_set py_eqb m k u
  | None => m
  end.

(** The listing [e] is the listing [l] with [user_id] removed and
    [user] set to [u], every other field as it was. *)
Definition enriched_from (l e u : json) : Prop :=
  exists d d',
    l = JObj d /\ e = JObj d'
    /\ dict_get String.eqb d' "user" = Some u
    /\ dict_get String.eqb d' "user_id" = None
    /\ (forall k, k <> "user" -> k <> "user_id" ->
                  dict_get String.eqb d' k = dict_get String.eqb d k)
    /\ filter (fun kv => negb (String.eqb (fst kv) "user")) d'
       = filter (fun kv => negb (String.eqb (fst kv) "user")
                           && negb (String.eqb (fst kv) "user_id")) d.

(** The primary fetch of [getListings] succeeded and the backend's
    page is the array [items]. *)
Definition page_returned (options : Options) (fetch : Request -> FetchResult)
    (q : ListingsQuery) (items : list json) : Prop :=
  exists resp d,
    fetch (listings_request options q) = inr resp
    /\ loads (body resp) = Loads (JObj d)
    /\ dict_get String.eqb d "listings" = Some (JArr items).

(** The success response with the given listings. *)
Definition success (listings : list json) : Response :=
  {| status := 200; payload := success_payload (JArr listings) |}.

(** The error envelope the gateway sends when something other than an
    [HTTPClientError] went wrong. *)
Definition internal_error : Response :=
  {| status := 500; payload := error_envelope "An internal server error occurred." |}.

(** A transport-level fault of a call: the fetch raised and there is no
    response of the backend behind it. *)
Definition transport_fault (res : FetchResult) : bool :=
  match res with
  | inl (HTTPClientError _ _ None) => true
  | inl (PyError _) => true
  | _ => false
  end.

(** The primary calls of the gateway. *)
Inductive Primary : Type :=
| ListingsFetch (q : ListingsQuery)
| CreateListing (request_body : Body)
| CreateUser (request_body : Body).

Definition gateway (options : Options) (fetch : Request -> FetchResult)
    (sched : Sched) (p : Primary) : Trace * option Response :=
  match p with
  | ListingsFetch q => getListings options fetch sched q
  | CreateListing b => createListing options fetch b
  | CreateUser b => createUser options fetch b
  end.

(** The request a primary call sends to its backend, when the client's
    input gets that far. *)
Definition primary_request (options : Options) (p : Primary) : option Request :=
  match p with
  | ListingsFetch q => Some (listings_request options q)
  | CreateListing b =>
      match loads b with
      | Loads parsed =>
          match urlencode parsed with
          | inr post_data => Some (create_listing_request options post_data)
          | inl _ => None
          end
      | _ => None
      end
  | CreateUser b =>
      match loads b with
      | Loads (JObj d) =>
          match dict_get String.eqb d "name" with
          | Some name =>
              if truthy name
              then Some (create_user_request options [("name", name)])
              else None
          | None => None
          end
      | _ => None
      end
  end.

(** A lookup that completed with a response whose decoded body has no
    truthy [user] field. *)
Definition lacks_user (res : FetchResult) : bool :=
  match res with
  | inl _ => false
  | inr resp =>
      match loads (body resp) with
      | Loads j =>
          match field j "user" with
          | Some v => negb (truthy v)
          | None => true
          end
      | _ => false
      end
  end.

(** Rows ordered by creation time, newest first. *)
Definition newest_first (rows : list Row) : Prop :=
  StronglySorted (fun a b => created_at b <= created_at a) rows.

(** The answer of [GET /users] with the given rows. *)
Definition users_response (rows : list Row) : Response :=
  {| status := 200;
     payload := JObj [("result", JBool true); ("users", JArr (map row_json rows))] |}.

(** The answer of [GET /users/{id}] with the given row. *)
Definition user_response (row : Row) : Response :=
  {| status := 200;
     payload := JObj [("result", JBool true); ("user", row_json row)] |}.

(** The answer of [POST /users] with the given row. *)
Definition created_response (row : Row) : Response :=
  {| status := 201;
     payload := JObj [("result", JBool true); ("user", row_json row)] |}.

Definition stamps_agree (r : Row) : Prop := created_at r = updated_at r.

(* ================================================================== *)
(** ** Facts about the client *)
(* ================================================================== *)

Section ClientFacts.
Variable fetch : Request -> FetchResult.
Variable sched : Sched.

Lemma length_set_nth {A} (i : nat) (x : A) (l : list A) :
  List.length (set_nth i x l) = List.length l.
Proof.
  revert i; induction l as [|y l IH]; intros [|i]; simpl; auto.
Qed.

Lemma nth_error_set_nth_eq {A} (i : nat) (x : A) (l : list A) :
  (i < List.length l)%nat -> nth_error (set_nth i x l) i = Some x.
Proof.
  revert i; induction l as [|y l IH]; intros [|i] Hi; simpl in *;
    try lia; auto.
  apply IH; lia.
Qed.

Lemma nth_error_set_nth_neq {A} (i j : nat) (x : A) (l : list A) :
  i <> j -> nth_error (set_nth i x l) j = nth_error l j.
Proof.
  revert i j; induction l as [|y l IH]; intros [|i] [|j] Hij; simpl;
    try congruence; auto.
Qed.

Lemma length_settle tasks order slots :
  List.length (settle fetch tasks order slots) = List.length slots.
Proof.
  revert slots; induction order as [|i order IH]; intros slots; simpl; auto.
  rewrite IH. destruct (nth_error tasks i); auto using length_set_nth.
Qed.

(** A slot holds the result of its task once the task is in the
    completion order, and is untouched before. *)
Lemma nth_error_settle tasks order : forall slots j r,
  List.length slots = List.length tasks ->
  nth_error tasks j = Some r ->
  nth_error (settle fetch tasks order slots) j
  = if existsb (Nat.eqb j) order then Some (Some (fetch r))
    else nth_error slots j.
Proof.
  induction order as [|i order IH]; intros slots j r Hlen Hj; simpl; auto.
  assert (Hjlt : (j < List.length tasks)%nat)
    by (apply nth_error_Some; congruence).
  destruct (Nat.eqb_spec j i) as [->|Hne]; simpl.
  - rewrite Hj. rewrite (IH _ i r); auto.
    + rewrite nth_error_set_nth_eq by lia.
      destruct (existsb _ order); reflexivity.
    + rewrite length_set_nth; auto.
  - destruct (nth_error tasks i) as [ri|] eqn:Hi.
    + rewrite (IH _ j r); auto.
      * rewrite nth_error_set_nth_neq by congruence. reflexivity.
      * rewrite length_set_nth; auto.
    + apply IH; auto.
Qed.

Lemma collect_map_Some {A} (l : list A) : collect (map Some l) = Some l.
Proof.
  induction l as [|a l IH]; simpl; auto. rewrite IH; reflexivity.
Qed.

(** Whatever the completion order, once all tasks have settled the
    slots hold the results in task order. *)
Lemma settle_all tasks :
  settle fetch tasks (completion sched (List.length tasks))
    (repeat None (List.length tasks))
  = map Some (map fetch tasks).
Proof.
  apply nth_error_ext; intros j.
  destruct (nth_error tasks j) as [r|] eqn:Hj.
  - rewrite (nth_error_settle _ _ _ j r); auto using repeat_length.
    assert (Hin : In j (completion sched (List.length tasks))).
    { apply (Permutation_in j (Permutation_sym (completion_perm sched _))).
      apply in_seq. split; [lia|].
      simpl. apply nth_error_Some. congruence. }
    assert (Hex : existsb (Nat.eqb j) (completion sched (List.length tasks)) = true).
    { apply existsb_exists. exists j. split; auto. apply Nat.eqb_refl. }
    rewrite Hex. rewrite !nth_error_map, Hj. reflexivity.
  - apply nth_error_None in Hj.
    transitivity (@None (option FetchResult)).
    + apply nth_error_None. rewrite length_settle, repeat_length. exact Hj.
    + symmetry. apply nth_error_None. rewrite !length_map. exact Hj.
Qed.

(** [gather] returns, with the results in task order. *)
Lemma gather_returns tasks t :
  gather fetch sched tasks t = (t, Returned (map fetch tasks)).
Proof.
  unfold gather. rewrite settle_all, collect_map_Some. reflexivity.
Qed.

(** Starting the lookups issues one call each, in order. *)
Lemma start_tasks {A} (f : A -> Request) (l : list A) (t : Trace) :
  mapM (fun a => http_client_fetch (f a)) l t
  = ((t ++ map f l)%list, Returned (map f l)).
Proof.
  revert t; induction l as [|a l IH]; intros t; simpl.
  - rewrite app_nil_r. reflexivity.
  - unfold http_client_fetch at 1. rewrite IH.
    rewrite <- app_assoc. reflexivity.
Qed.
End ClientFacts.

(* ================================================================== *)
(** ** Facts about the gateway *)
(* ================================================================== *)

Lemma execute_served (h : M Response) :
  execute h = (fst (h []), served (snd (h []))).
Proof.
  unfold execute. destruct (h []) as [t [r|e|]]; reflexivity.
Qed.

Section GatewayFacts.
Variable options : Options.
Variable fetch : Request -> FetchResult.
Variable sched : Sched.

Let primary := listings_request options.
Let lookup := user_request options.

(** [PublicListingsHandler.get], path by path: the calls issued and
    the way the coroutine ends. *)
Lemma PublicListingsHandler_get_run q :
  PublicListingsHandler_get options fetch sched q []
  = match fetch (primary q) with
    | inl e => ([primary q], outcome_of (get_except e))
    | inr resp =>
        match (data <- json_loads (body resp) ;;
               py_get data "listings" (JArr [])) with
        | inl e => ([primary q], outcome_of (get_except e))
        | inr listings =>
            if truthy listings then
              match (items <- py_iter listings ;;
                     ids <- mapM user_id_of items ;;
                     ret (items, ids)) with
              | inl e => ([primary q], outcome_of (get_except e))
              | inr (items, ids) =>
                  let uids := set_order sched (set_of ids) in
                  (primary q :: map lookup uids,
                   guarded
                     (users_map <- foldM absorb (map fetch (map lookup uids)) [] ;;
                      enriched <- mapM (enrich users_map) items ;;
                      write_json (success_payload (JArr enriched)) 200))
              end
            else ([primary q], guarded (write_json (success_payload (JArr [])) 200))
        end
    end.
Proof.
  unfold PublicListingsHandler_get, try_except, await, lift, primary, lookup.
  cbn [bind Monad_M http_client_fetch app].
  destruct (fetch (listings_request options q)) as [e|resp]; [reflexivity|].
  cbn [bind Monad_Result].
  destruct (json_loads (body resp)) as [e|data]; [reflexivity|].
  destruct (py_get data "listings" (JArr [])) as [e|listings]; [reflexivity|].
  destruct (truthy listings); cbn [negb]; [|reflexivity].
  destruct (py_iter listings) as [e|items]; [reflexivity|].
  destruct (mapM user_id_of items) as [e|ids]; [reflexivity|].
  cbn [ret Monad_Result].
  rewrite start_tasks. cbn [app].
  rewrite gather_returns.
  destruct (foldM absorb _ []) as [e|users_map]; [reflexivity|].
  destruct (mapM (enrich users_map) items) as [e|enriched]; reflexivity.
Qed.

Lemma getListings_run q :
  getListings options fetch sched q
  = (fst (PublicListingsHandler_get options fetch sched q []),
     served (snd (PublicListingsHandler_get options fetch sched q []))).
Proof. apply execute_served. Qed.
End GatewayFacts.

(* ================================================================== *)
(** ** Facts about keys, sets and dicts *)
(* ================================================================== *)

Lemma key_num_idem k : key_num (key_num k) = key_num k.
Proof. destruct k as [| [|] | |]; reflexivity. Qed.

Lemma py_eqb_true_iff a b : py_eqb a b = true <-> key_num a = key_num b.
Proof.
  unfold py_eqb.
  destruct a as [| [|] | x | s], b as [| [|] | y | t]; cbn [key_num];
    try (split; congruence);
    try (rewrite Z.eqb_eq; split; congruence);
    try (rewrite String.eqb_eq; split; congruence).
Qed.

Lemma py_eqb_refl k : py_eqb k k = true.
Proof. apply py_eqb_true_iff. reflexivity. Qed.

Lemma py_eqb_sym a b : py_eqb a b = py_eqb b a.
Proof.
  destruct (py_eqb a b) eqn:H1, (py_eqb b a) eqn:H2; auto.
  - apply py_eqb_true_iff in H1. symmetry in H1.
    apply py_eqb_true_iff in H1. congruence.
  - apply py_eqb_true_iff in H2. symmetry in H2.
    apply py_eqb_true_iff in H2. congruence.
Qed.

Lemma py_eqb_cong a b c : py_eqb a b = true -> py_eqb a c = py_eqb b c.
Proof.
  intros H. apply py_eqb_true_iff in H.
  destruct (py_eqb a c) eqn:H1, (py_eqb b c) eqn:H2; auto.
  - apply py_eqb_true_iff in H1.
    assert (H3 : py_eqb b c = true) by (apply py_eqb_true_iff; congruence).
    congruence.
  - apply py_eqb_true_iff in H2.
    assert (H3 : py_eqb a c = true) by (apply py_eqb_true_iff; congruence).
    congruence.
Qed.

Lemma string_eqb_cong a b c : String.eqb a b = true -> String.eqb a c = String.eqb b c.
Proof. intros H. apply String.eqb_eq in H. subst. reflexivity. Qed.

Lemma mem_app k l l' : mem k (l ++ l') = mem k l || mem k l'.
Proof. apply existsb_app. Qed.

Lemma mem_cong a b l : py_eqb a b = true -> mem a l = mem b l.
Proof.
  intros H. unfold mem. induction l as [|x l IH]; simpl; auto.
  rewrite IH. f_equal.
  rewrite (py_eqb_sym x a), (py_eqb_sym x b). apply py_eqb_cong, H.
Qed.

Lemma mem_In k l : In k l -> mem k l = true.
Proof.
  intros H. apply existsb_exists. exists k. split; auto using py_eqb_refl.
Qed.

Lemma mem_set_add k s x : mem k (set_add s x) = mem k s || py_eqb x k.
Proof.
  unfold set_add. fold (mem x s).
  destruct (mem x s) eqn:Hx.
  - destruct (py_eqb x k) eqn:Hk; [|rewrite orb_false_r; reflexivity].
    rewrite <- (mem_cong x k s Hk), Hx. reflexivity.
  - rewrite mem_app. simpl. rewrite orb_false_r. reflexivity.
Qed.

Lemma distinct_snoc s x : distinct s = true -> mem x s = false -> distinct (s ++ [x]) = true.
Proof.
  induction s as [|a s IH]; simpl; intros Hd Hx; auto.
  apply andb_true_iff in Hd as [Ha Hd].
  apply orb_false_iff in Hx as [Hax Hx].
  rewrite mem_app, IH by auto. simpl.
  rewrite py_eqb_sym, Hax.
  apply negb_true_iff in Ha. rewrite Ha. reflexivity.
Qed.

Lemma distinct_set_add s x : distinct s = true -> distinct (set_add s x) = true.
Proof.
  intros Hd. unfold set_add. fold (mem x s).
  destruct (mem x s) eqn:Hx; auto using distinct_snoc.
Qed.

Lemma set_add_incl s x k : In k (set_add s x) -> In k s \/ k = x.
Proof.
  unfold set_add. destruct (existsb _ s); auto.
  intros H. apply in_app_or in H as [H|[H|[]]]; auto.
Qed.

Lemma fold_set_add ids : forall s,
  distinct s = true ->
  distinct (fold_left set_add ids s) = true
  /\ (forall k, mem k (fold_left set_add ids s) = mem k s || mem k ids)
  /\ (forall k, In k (fold_left set_add ids s) -> In k s \/ In k ids).
Proof.
  induction ids as [|x ids IH]; intros s Hd; simpl.
  - repeat split; auto. intros k. rewrite orb_false_r. reflexivity.
  - destruct (IH (set_add s x) (distinct_set_add s x Hd)) as (H1 & H2 & H3).
    repeat split; auto.
    + intros k. rewrite H2, mem_set_add, orb_assoc. reflexivity.
    + intros k Hk. destruct (H3 k Hk) as [H|H]; auto.
      destruct (set_add_incl _ _ _ H); subst; auto.
Qed.

(** The set built from [ids] has each id of [ids] once. *)
Lemma set_of_spec ids :
  distinct (set_of ids) = true
  /\ (forall k, mem k (set_of ids) = mem k ids)
  /\ (forall k, In k (set_of ids) -> In k ids).
Proof.
  destruct (fold_set_add ids [] eq_refl) as (H1 & H2 & H3).
  repeat split; auto.
  intros k Hk. destruct (H3 k Hk) as [[]|H]; auto.
Qed.

Lemma mem_Permutation k l l' : Permutation l l' -> mem k l = mem k l'.
Proof.
  induction 1; simpl; auto.
  - rewrite IHPermutation. reflexivity.
  - rewrite !orb_assoc, (orb_comm (py_eqb y k)). reflexivity.
  - congruence.
Qed.

Lemma distinct_Permutation l l' : Permutation l l' -> distinct l = distinct l'.
Proof.
  induction 1; simpl; auto.
  - rewrite IHPermutation, (mem_Permutation x l l'); auto.
  - rewrite (py_eqb_sym x y).
    destruct (py_eqb y x), (mem y l), (mem x l); reflexivity.
  - congruence.
Qed.

Section DictFacts.
Context {K V : Type} (eqb : K -> K -> bool).
Hypothesis eqb_refl : forall a, eqb a a = true.
Hypothesis eqb_cong : forall a b c, eqb a b = true -> eqb a c = eqb b c.

Lemma eqb_trans_false a b c : eqb a b = false -> eqb a c = true -> eqb b c = false.
Proof.
  intros Hab Hac. destruct (eqb b c) eqn:Hbc; auto.
  rewrite (eqb_cong _ _ b Hac) in Hab.
  rewrite <- (eqb_cong _ _ b Hbc), eqb_refl in Hab. congruence.
Qed.

Lemma dict_get_set (d : list (K * V)) k v k' :
  dict_get eqb (dict_set eqb d k v) k'
  = if eqb k k' then Some v else dict_get eqb d k'.
Proof.
  induction d as [|[a x] d IH]; simpl; auto.
  destruct (eqb a k) eqn:Hak; simpl.
  - rewrite (eqb_cong _ _ k' Hak). destruct (eqb k k'); reflexivity.
  - rewrite IH. destruct (eqb a k') eqn:Hak'; auto.
    rewrite (eqb_trans_false _ _ _ Hak Hak'). reflexivity.
Qed.

Lemma dict_get_filter_other (d : list (K * V)) k k' :
  eqb k k' = false ->
  dict_get eqb (filter (fun kv => negb (eqb (fst kv) k)) d) k' = dict_get eqb d k'.
Proof.
  intros Hkk'. induction d as [|[a x] d IH]; simpl; auto.
  destruct (eqb a k) eqn:Hak; simpl.
  - rewrite IH. rewrite (eqb_cong _ _ k' Hak), Hkk'. reflexivity.
  - rewrite IH. reflexivity.
Qed.

Lemma dict_get_filter_same (d : list (K * V)) k k' :
  eqb k k' = true ->
  dict_get eqb (filter (fun kv => negb (eqb (fst kv) k)) d) k' = None.
Proof.
  intros Hkk'. induction d as [|[a x] d IH]; simpl; auto.
  destruct (eqb a k) eqn:Hak; simpl; auto.
  rewrite IH. destruct (eqb a k') eqn:Hak'; auto.
  rewrite (eqb_cong _ _ k Hak') in Hak.
  rewrite <- (eqb_cong _ _ k Hkk'), eqb_refl in Hak. congruence.
Qed.
End DictFacts.

Lemma py_eqb_cong_r a b c : py_eqb a b = true -> py_eqb c a = py_eqb c b.
Proof. intros H. rewrite (py_eqb_sym c a), (py_eqb_sym c b). auto using py_eqb_cong. Qed.

Lemma users_map_get_cong (m : users_map_t) a b :
  py_eqb a b = true -> dict_get py_eqb m a = dict_get py_eqb m b.
Proof.
  intros H. induction m as [|[k u] m IH]; simpl; auto.
  rewrite (py_eqb_cong_r a b k H), IH. reflexivity.
Qed.

Lemma filter_filter {A} (p q : A -> bool) (l : list A) :
  filter p (filter q l) = filter (fun a => p a && q a) l.
Proof.
  induction l as [|a l IH]; simpl; auto.
  destruct (q a) eqn:Hq; simpl; rewrite ?IH, ?andb_true_r, ?andb_false_r; auto.
Qed.

Lemma filter_dict_set (d : list (string * json)) k v :
  filter (fun kv => negb (String.eqb (fst kv) k)) (dict_set String.eqb d k v)
  = filter (fun kv => negb (String.eqb (fst kv) k)) d.
Proof.
  induction d as [|[a x] d IH]; simpl.
  - rewrite String.eqb_refl. reflexivity.
  - destruct (String.eqb a k) eqn:Hak; simpl; rewrite Hak; simpl; auto.
    rewrite IH. reflexivity.
Qed.

(* ================================================================== *)
(** ** Facts about the loops of the aggregation *)
(* ================================================================== *)

Lemma mapM_Forall2 {A B} (f : A -> Result B) l l' :
  mapM f l = inr l' <-> Forall2 (fun a b => f a = inr b) l l'.
Proof.
  revert l'; induction l as [|a l IH]; intros l'; simpl.
  - split; intros H; [inversion H; constructor | inversion H; reflexivity].
  - destruct (f a) as [e|b] eqn:Hfa.
    + split; intros H; [discriminate | inversion H; congruence].
    + destruct (mapM f l) as [e|bs] eqn:Hm; simpl.
      * split; intros H; [discriminate|].
        inversion H; subst. apply IH in H4. discriminate.
      * split; intros H.
        -- inversion H; subst. constructor; auto. apply IH. reflexivity.
        -- inversion H; subst. apply IH in H4. congruence.
Qed.

Lemma user_id_of_owner l uid : user_id_of l = inr uid <-> owner_is l uid.
Proof.
  unfold user_id_of, owner_is, py_getitem, hash_key. split.
  - destruct l as [| | | |items|d]; simpl; try discriminate.
    destruct (dict_get String.eqb d "user_id") as [v|] eqn:Hv; simpl; try discriminate.
    destruct (as_key v) as [k|] eqn:Hk; simpl; try discriminate.
    intros H; inversion H; subst. eauto.
  - intros (d & v & -> & Hv & Hk). simpl. rewrite Hv. simpl. rewrite Hk. reflexivity.
Qed.

(** A well-formed listing is enriched, with the user found under its
    user id or with null. *)
Lemma enrich_owner (m : users_map_t) l uid :
  owner_is l uid ->
  exists e,
    enrich m l = inr e
    /\ enriched_from l e
         (match dict_get py_eqb m uid with Some u => u | None => JNull end).
Proof.
  intros (d & v & -> & Hv & Hk).
  unfold enrich, py_getitem, hash_key. simpl. rewrite Hv. simpl. rewrite Hk. simpl.
  set (found := match dict_get py_eqb m uid with Some u => u | None => JNull end).
  unfold dict_del.
  rewrite (dict_get_set String.eqb String.eqb_refl string_eqb_cong).
  simpl. rewrite Hv.
  eexists; split; [reflexivity|].
  exists d. eexists. repeat split.
  - rewrite (dict_get_filter_other String.eqb string_eqb_cong) by reflexivity.
    rewrite (dict_get_set String.eqb String.eqb_refl string_eqb_cong).
    rewrite String.eqb_refl. reflexivity.
  - apply (dict_get_filter_same String.eqb String.eqb_refl string_eqb_cong).
    reflexivity.
  - intros k Hk1 Hk2.
    rewrite (dict_get_filter_other String.eqb string_eqb_cong)
      by (apply String.eqb_neq; congruence).
    rewrite (dict_get_set String.eqb String.eqb_refl string_eqb_cong).
    assert (Hu : String.eqb "user" k = false) by (apply String.eqb_neq; congruence).
    rewrite Hu. reflexivity.
  - transitivity
      (filter (fun kv => negb (String.eqb (fst kv) "user_id"))
         (filter (fun kv => negb (String.eqb (fst kv) "user"))
            (dict_set String.eqb d "user" found))).
    + rewrite !filter_filter. apply filter_ext. intros a. apply andb_comm.
    + rewrite filter_dict_set, filter_filter.
      apply filter_ext. intros a. apply andb_comm.
Qed.

Lemma enrich_inv (m : users_map_t) l e :
  enrich m l = inr e -> exists uid, owner_is l uid.
Proof.
  unfold enrich. intros H.
  destruct (py_getitem l "user_id") as [x|v] eqn:Hv; simpl in H; try discriminate.
  destruct (hash_key v) as [x|k] eqn:Hk; simpl in H; try discriminate.
  exists k. apply user_id_of_owner. unfold user_id_of. rewrite Hv. simpl. exact Hk.
Qed.

(** The loop over the responses adds what each of them brings. *)
Lemma absorb_entry m res :
  absorb m res = (e <- entry_of res ;; ret (add_entry m e)).
Proof.
  unfold absorb, entry_of. destruct res as [e|response]; simpl; auto.
  destruct (json_loads (body response)) as [e|data]; simpl; auto.
  destruct (py_get data "user" JNull) as [e|user_data]; simpl; auto.
  destruct (truthy user_data); simpl; auto.
  destruct (py_getitem user_data "id") as [e|v]; simpl; auto.
  destruct (hash_key v) as [e|k]; simpl; auto.
Qed.

Lemma foldM_absorb rs : forall es m,
  Forall2 (fun r e => entry_of r = inr e) rs es ->
  foldM absorb rs m = inr (fold_left add_entry es m).
Proof.
  induction rs as [|r rs IH]; intros es m H; inversion H; subst; simpl; auto.
  rewrite absorb_entry, H2. simpl. apply IH; auto.
Qed.

Lemma entry_of_failed res : lookup_failed res = true -> entry_of res = inr None.
Proof. destruct res; simpl; congruence. Qed.

Lemma entry_of_contract uid res u :
  contract_user uid res = Some u ->
  exists k, entry_of res = inr (Some (k, u)) /\ py_eqb k uid = true /\ u <> JNull.
Proof.
  unfold contract_user, entry_of, json_loads, py_get, py_getitem, hash_key.
  destruct res as [e|resp]; try discriminate.
  destruct (loads (body resp)) as [[| | | | |d]| |]; try discriminate.
  cbn [bind ret Monad_Result].
  destruct (dict_get String.eqb d "user") as [[| | | | |fields]|];
    try discriminate.
  destruct (dict_get String.eqb fields "id") as [v|] eqn:Hv; try discriminate.
  assert (Ht : truthy (JObj fields) = true) by (destruct fields; [discriminate|reflexivity]).
  rewrite Ht.
  destruct (as_key v) as [k|]; try discriminate.
  destruct (py_eqb k uid) eqn:Hk; try discriminate.
  intros H; inversion H; subst. exists k.
  cbn [bind ret Monad_Result]. repeat split; auto. discriminate.
Qed.

(** What [users_map] holds after the loop, when the lookups were made
    for distinct ids and each brought nothing or a record under its own
    id: [g uid] is the record the lookup of [uid] brought. *)
Lemma users_map_after (g : key -> option json) uids : forall es m,
  distinct uids = true ->
  Forall2 (fun uid e =>
             match g uid with
             | Some u => exists k, e = Some (k, u) /\ py_eqb k uid = true
             | None => e = None
             end) uids es ->
  (forall uid, In uid uids ->
     dict_get py_eqb (fold_left add_entry es m) uid
     = match g uid with Some u => Some u | None => dict_get py_eqb m uid end)
  /\ (forall k, mem k uids = false ->
        dict_get py_eqb (fold_left add_entry es m) k = dict_get py_eqb m k).
Proof.
  induction uids as [|a us IH]; intros es m Hd H; inversion H; subst; simpl.
  - split; [intros uid []|auto].
  - simpl in Hd. apply andb_true_iff in Hd as [Ha Hd].
    apply negb_true_iff in Ha.
    destruct (IH l' (add_entry m y) Hd H4) as [IH1 IH2].
    assert (Hstep : forall k, py_eqb a k = false ->
              dict_get py_eqb (add_entry m y) k = dict_get py_eqb m k).
    { intros k Hak. destruct (g a) as [u|].
      - destruct H2 as (k' & -> & Hk'). simpl.
        rewrite (dict_get_set py_eqb py_eqb_refl py_eqb_cong).
        rewrite (py_eqb_cong _ _ k Hk'), Hak. reflexivity.
      - subst y. reflexivity. }
    split.
    + intros uid [<-|Hin].
      * rewrite IH2 by exact Ha.
        destruct (g a) as [u|].
        -- destruct H2 as (k' & -> & Hk'). simpl.
           rewrite (dict_get_set py_eqb py_eqb_refl py_eqb_cong), Hk'. reflexivity.
        -- subst y. reflexivity.
      * rewrite IH1 by exact Hin.
        rewrite Hstep; auto.
        destruct (py_eqb a uid) eqn:Hau; auto.
        rewrite (mem_cong a uid us Hau), (mem_In uid us Hin) in Ha. discriminate.
    + intros k Hk. apply orb_false_iff in Hk as [Hak Hk].
      rewrite IH2 by exact Hk. apply Hstep. exact Hak.
Qed.

(* ================================================================== *)
(** ** Ids and the requests that look them up *)
(* ================================================================== *)

Lemma append_cancel_l (p a b : string) : p ++ a = p ++ b -> a = b.
Proof.
  induction p as [|c p IH]; simpl; intros H; auto.
  injection H as H. auto.
Qed.

Lemma to_int_not_nil z :
  Z.to_int z <> Decimal.Pos Decimal.Nil /\ Z.to_int z <> Decimal.Neg Decimal.Nil.
Proof.
  destruct z as [|p|p]; simpl; split; try discriminate;
    intros H; injection H as H; apply (Unsigned.to_uint_nonnil p H).
Qed.

(** Different integers print differently. *)
Lemma py_str_int_inj a b : py_str (KInt a) = py_str (KInt b) -> a = b.
Proof.
  simpl. intros H.
  apply (f_equal NilZero.int_of_string) in H.
  destruct (to_int_not_nil a) as [Ha1 Ha2].
  destruct (to_int_not_nil b) as [Hb1 Hb2].
  rewrite !NilZero.isi in H by assumption.
  injection H as H.
  rewrite <- (DecimalZ.of_to a), <- (DecimalZ.of_to b), H. reflexivity.
Qed.

(** Requests that differ in nothing but what follows a common prefix
    of their URLs are different for integer ids that are not equal. *)
Lemma int_lookups_differ (prefix : string) uids :
  (forall uid, In uid uids -> exists n, uid = KInt n) ->
  distinct uids = true ->
  NoDup (map (fun uid => {| method := GET; url := prefix ++ py_str uid;
                            query := []; form := None |}) uids).
Proof.
  induction uids as [|a uids IH]; intros Hint Hd; simpl; constructor.
  - simpl in Hd. apply andb_true_iff in Hd as [Ha _]. apply negb_true_iff in Ha.
    intros Hin. apply in_map_iff in Hin as (b & Hb & Hin).
    injection Hb as Hb. apply append_cancel_l in Hb.
    destruct (Hint a (or_introl eq_refl)) as [n ->].
    destruct (Hint b (or_intror Hin)) as [m ->].
    apply py_str_int_inj in Hb. subst m.
    rewrite (mem_In _ _ Hin) in Ha. discriminate.
  - simpl in Hd. apply andb_true_iff in Hd as [_ Hd].
    apply IH; auto. intros uid Hin. apply Hint. right. exact Hin.
Qed.

Lemma distinct_nth_error l :
  distinct l = true ->
  forall i j a b,
    (i < j)%nat -> nth_error l i = Some a -> nth_error l j = Some b ->
    py_eqb a b = false.
Proof.
  induction l as [|x l IH]; intros Hd i j a b Hij Hi Hj.
  - destruct i; discriminate.
  - simpl in Hd. apply andb_true_iff in Hd as [Hx Hd]. apply negb_true_iff in Hx.
    destruct j as [|j]; [lia|]. simpl in Hj.
    destruct i as [|i]; simpl in Hi.
    + injection Hi as ->. apply nth_error_In in Hj.
      destruct (py_eqb a b) eqn:E; [|reflexivity].
      rewrite (mem_cong _ _ l E), (mem_In _ _ Hj) in Hx. discriminate.
    + apply (IH Hd i j); auto. lia.
Qed.

(** Two lookups of integer ids, at different places of a list of ids
    that are distinct, are different requests. *)
Lemma int_lookups_apart (prefix : string) uids :
  distinct uids = true ->
  forall i j n m,
    i <> j ->
    nth_error uids i = Some (KInt n) -> nth_error uids j = Some (KInt m) ->
    {| method := GET; url := prefix ++ py_str (KInt n); query := []; form := None |}
    <> {| method := GET; url := prefix ++ py_str (KInt m); query := []; form := None |}.
Proof.
  intros Hd i j n m Hij Hi Hj Heq.
  injection Heq as Heq. apply append_cancel_l, py_str_int_inj in Heq. subst m.
  assert (Hrefl : py_eqb (KInt n) (KInt n) = true) by apply py_eqb_refl.
  destruct (Nat.lt_total i j) as [Hlt|[Heq|Hlt]]; [|contradiction|].
  - rewrite (distinct_nth_error _ Hd i j _ _ Hlt Hi Hj) in Hrefl. discriminate.
  - rewrite (distinct_nth_error _ Hd j i _ _ Hlt Hj Hi) in Hrefl. discriminate.
Qed.

(** C2, as stated, fails on user ids that are not all integers. A page
    with the user ids 7 and "7", two ids that Python tells apart, makes
    the gateway send one and the same request, GET /users/7, twice: two
    distinct ids, one distinct lookup. A page with the user ids 1 and
    true, two different JSON values that Python's set takes for one,
    gets a single lookup. *)
Lemma C2_ids_that_print_or_compare_alike :
  fst (getListings default_options
         (Worlds.fetch_page
            [ JObj [("id", JInt 1); ("user_id", JInt 7)];
              JObj [("id", JInt 2); ("user_id", JStr "7")] ])
         Worlds.sched_fifo Worlds.no_arguments)
  = [ {| method := GET; url := "http://localhost:6000/listings";
         query := [("page_num", "1"); ("page_size", "10")]; form := None |};
      {| method := GET; url := "http://localhost:7000/users/7";
         query := []; form := None |};
      {| method := GET; url := "http://localhost:7000/users/7";
         query := []; form := None |} ]
  /\ py_eqb (KInt 7) (KStr "7") = false
  /\ fst (getListings default_options
            (Worlds.fetch_page
               [ JObj [("id", JInt 1); ("user_id", JInt 1)];
                 JObj [("id", JInt 2); ("user_id", JBool true)] ])
            Worlds.sched_fifo Worlds.no_arguments)
     = [ {| method := GET; url := "http://localhost:6000/listings";
            query := [("page_num", "1"); ("page_size", "10")]; form := None |};
         {| method := GET; url := "http://localhost:7000/users/1";
            query := []; form := None |} ]
  /\ JInt 1 <> JBool true.
Proof. repeat split; try reflexivity. discriminate. Qed.

(* ================================================================== *)
(** ** The read path of the gateway *)
(* ================================================================== *)

Section ReadPath.
Variable options : Options.
Variable fetch : Request -> FetchResult.
Variable sched : Sched.

Let primary := listings_request options.
Let lookup := user_request options.

(** The fan-out on a page that is not empty: one lookup for each
    element of the set of user ids, then the two loops. *)
Lemma getListings_fanout q items ids :
  page_returned options fetch q items ->
  items <> [] ->
  Forall2 owner_is items ids ->
  getListings options fetch sched q
  = (primary q :: map lookup (set_order sched (set_of ids)),
     served
       (guarded
          (users_map <- foldM absorb
                          (map fetch (map lookup (set_order sched (set_of ids)))) [] ;;
           enriched <- mapM (enrich users_map) items ;;
           write_json (success_payload (JArr enriched)) 200))).
Proof.
  intros (resp & d & Hf & Hl & Hd) Hne Hown.
  subst primary lookup.
  rewrite getListings_run, PublicListingsHandler_get_run. rewrite Hf.
  unfold json_loads. rewrite Hl. cbn [bind ret Monad_Result py_get].
  rewrite Hd. cbn [truthy].
  destruct items as [|l items']; [congruence|].
  cbn [py_iter bind ret Monad_Result].
  assert (Hm : mapM user_id_of (l :: items') = inr ids).
  { apply mapM_Forall2.
    eapply Forall2_impl; [|exact Hown]. intros a b. apply user_id_of_owner. }
  rewrite Hm. cbn [fst snd]. reflexivity.
Qed.

Lemma getListings_empty q :
  page_returned options fetch q [] ->
  getListings options fetch sched q = ([primary q], Some (success [])).
Proof.
  intros (resp & d & Hf & Hl & Hd).
  subst primary.
  rewrite getListings_run, PublicListingsHandler_get_run. rewrite Hf.
  unfold json_loads. rewrite Hl. cbn [bind ret Monad_Result py_get].
  rewrite Hd. reflexivity.
Qed.

(** C4. When the listing backend returns an empty listings array, the
    only call the gateway issues is the primary one, no user lookup,
    and it answers 200 with result true and an empty listings array. *)
Theorem C4_empty_page_no_fanout q :
  page_returned options fetch q [] ->
  getListings options fetch sched q
  = ([listings_request options q],
     Some {| status := 200;
             payload := JObj [("result", JBool true); ("listings", JArr [])] |}).
Proof. apply getListings_empty. Qed.

(** C2, amended. The calls issued for a page are the listings request
    and then one GET of /users/<id> on the user service for each
    element of the Python set of the page's user ids: for each user id
    of the page up to Python's equality, once however many listings
    share it, and for no id that is not in the page. When the user ids
    are integers these lookups are different requests, one for each
    distinct id of the page. *)
Theorem C2_one_lookup_per_set_element q items ids :
  page_returned options fetch q items ->
  Forall2 owner_is items ids ->
  exists uids,
    fst (getListings options fetch sched q)
    = {| method := GET;
         url := "http://localhost:" ++ py_str (KInt (listing_service_port options))
                ++ "/listings";
         query := query_params q; form := None |}
      :: map (fun uid =>
                {| method := GET;
                   url := ("http://localhost:"
                           ++ py_str (KInt (user_service_port options)) ++ "/users/")
                          ++ py_str uid;
                   query := []; form := None |}) uids
    /\ distinct uids = true
    /\ (forall k, mem k uids = mem k ids)
    /\ (forall uid, In uid uids -> In uid ids)
    /\ ((forall uid, In uid ids -> exists n, uid = KInt n) ->
        NoDup (map (fun uid =>
                      {| method := GET;
                         url := ("http://localhost:"
                                 ++ py_str (KInt (user_service_port options))
                                 ++ "/users/")
                                ++ py_str uid;
                         query := []; form := None |}) uids)
        /\ forall n, In (KInt n) uids <-> In (KInt n) ids).
Proof.
  intros Hpage Hown.
  assert (Hgen : exists uids,
            fst (getListings options fetch sched q)
            = listings_request options q :: map (user_request options) uids
            /\ distinct uids = true
            /\ (forall k, mem k uids = mem k ids)
            /\ (forall uid, In uid uids -> In uid ids)).
  { destruct items as [|l items'].
    - inversion Hown; subst. exists []. rewrite getListings_empty by exact Hpage.
      repeat split; auto.
    - rewrite (getListings_fanout q _ ids Hpage) by (auto; discriminate).
      destruct (set_of_spec ids) as (Hd & Hm & Hi).
      pose proof (set_order_perm sched (set_of ids)) as Hp.
      exists (set_order sched (set_of ids)). repeat split.
      + rewrite (distinct_Permutation _ _ Hp). exact Hd.
      + intros k. rewrite (mem_Permutation k _ _ Hp). apply Hm.
      + intros uid Hin. apply Hi. eapply Permutation_in; eauto. }
  destruct Hgen as (uids & Htrace & Hd & Hm & Hi).
  exists uids. split; [exact Htrace|].
  split; [exact Hd|]. split; [exact Hm|]. split; [exact Hi|].
  intros Hint. split.
  - apply int_lookups_differ; auto.
  - intros n. split; [apply Hi|].
    intros Hin. pose proof (mem_In _ _ Hin) as Hmem. rewrite <- Hm in Hmem.
    apply existsb_exists in Hmem as (x & Hx & Hxn).
    destruct (Hint x (Hi x Hx)) as [m ->].
    unfold py_eqb in Hxn. simpl in Hxn. apply Z.eqb_eq in Hxn. subst m. exact Hx.
Qed.
End ReadPath.

Lemma Forall2_In_r {A B} (R : A -> B -> Prop) l l' :
  Forall2 R l l' -> Forall2 (fun a b => R a b /\ In b l') l l'.
Proof.
  induction 1; constructor; simpl; auto.
  eapply Forall2_impl; [|exact IHForall2]. simpl. intros a b [? ?]; auto.
Qed.

(** The loop over a well-formed page enriches every listing. *)
Lemma enrich_all (m : users_map_t) (Q : key -> Prop) items ids :
  Forall2 (fun l k => owner_is l k /\ Q k) items ids ->
  exists out,
    mapM (enrich m) items = inr out
    /\ Forall2 (fun l e =>
                  exists k, owner_is l k /\ Q k
                    /\ enriched_from l e
                         (match dict_get py_eqb m k with Some u => u | None => JNull end))
         items out.
Proof.
  induction 1 as [|l k items ids [Hl Hk] _ (out & Hout & Hall)].
  - exists []. split; [reflexivity|constructor].
  - destruct (enrich_owner m l k Hl) as (e & He & Hfrom).
    exists (e :: out). split.
    + simpl. rewrite He. simpl. rewrite Hout. reflexivity.
    + constructor; eauto.
Qed.

Section Lookups.
Variable options : Options.
Variable fetch : Request -> FetchResult.
Variable sched : Sched.

Let lookup := user_request options.

(** The record the lookup of [uid] resolves to under the user
    backend's contract, if any. *)
Let resolved (uid : key) : option json := contract_user uid (fetch (lookup uid)).

Lemma entries_exist uids :
  (forall uid, In uid uids ->
     lookup_failed (fetch (lookup uid)) = true \/ exists u, resolved uid = Some u) ->
  exists es,
    Forall2 (fun r e => entry_of r = inr e) (map fetch (map lookup uids)) es
    /\ Forall2 (fun uid e =>
                  match resolved uid with
                  | Some u => exists k, e = Some (k, u) /\ py_eqb k uid = true
                  | None => e = None
                  end) uids es.
Proof.
  induction uids as [|uid uids IH]; intros H.
  - exists []. split; constructor.
  - destruct IH as (es & H1 & H2); [intros; apply H; simpl; auto|].
    destruct (H uid (or_introl eq_refl)) as [Hf|[u Hu]].
    + exists (None :: es). split; constructor; auto using entry_of_failed.
      unfold resolved. destruct (fetch (lookup uid)); [reflexivity|discriminate].
    + destruct (entry_of_contract _ _ _ Hu) as (k & He & Hk & _).
      exists (Some (k, u) :: es). split; constructor; auto.
      rewrite Hu. eauto.
Qed.

(** C1. When the primary fetch succeeded and every user lookup either
    failed (a status outside 2xx or a transport fault) or resolved its
    user as the user backend's contract says, getListings answers with
    result true and every listing of the page, in place; each listing
    is enriched with the outcome of the lookup issued for its user id,
    and its user is null exactly when that lookup failed. No lookup
    failure turns into a failure of the request. *)
Theorem C1_failed_lookups_give_null_users q items ids :
  page_returned options fetch q items ->
  Forall2 owner_is items ids ->
  (forall uid, In uid ids ->
     lookup_failed (fetch (user_request options uid)) = true
     \/ exists u, contract_user uid (fetch (user_request options uid)) = Some u) ->
  exists out,
    snd (getListings options fetch sched q)
    = Some {| status := 200;
              payload := JObj [("result", JBool true); ("listings", JArr out)] |}
    /\ Forall2
         (fun l e =>
            exists k uid u,
              owner_is l k /\ py_eqb uid k = true
              /\ In (user_request options uid) (fst (getListings options fetch sched q))
              /\ enriched_from l e u
              /\ (u = JNull <-> lookup_failed (fetch (user_request options uid)) = true))
         items out.
Proof.
  intros Hpage Hown Hlook.
  destruct items as [|l0 items'].
  - inversion Hown; subst. exists []. rewrite getListings_empty by exact Hpage.
    split; [reflexivity|constructor].
  - rewrite (getListings_fanout options fetch sched q _ ids Hpage)
      by (auto; discriminate).
    set (items := l0 :: items') in *.
    set (uids := set_order sched (set_of ids)).
    destruct (set_of_spec ids) as (Hd & Hm & Hi).
    pose proof (set_order_perm sched (set_of ids)) as Hp. fold uids in Hp.
    assert (Hsub : forall uid, In uid uids -> In uid ids).
    { intros uid Hin. apply Hi. eapply Permutation_in; eauto. }
    destruct (entries_exist uids) as (es & He1 & He2).
    { intros uid Hin. apply Hlook, Hsub, Hin. }
    fold lookup. rewrite (foldM_absorb _ es [] He1).
    cbn [bind ret Monad_Result].
    assert (Hdu : distinct uids = true)
      by (rewrite (distinct_Permutation _ _ Hp); exact Hd).
    destruct (users_map_after resolved uids es [] Hdu He2) as [Hget _].
    set (m := fold_left add_entry es []) in *.
    destruct (enrich_all m (fun k => In k ids) items ids (Forall2_In_r _ _ _ Hown))
      as (out & Hout & Hall).
    rewrite Hout. exists out. split; [reflexivity|].
    eapply Forall2_impl; [|exact Hall].
    intros l e (k & Hl & Hk & Hfrom). cbn [fst].
    assert (Hmem : mem k uids = true).
    { rewrite (mem_Permutation k _ _ Hp), Hm. apply mem_In, Hk. }
    apply existsb_exists in Hmem as (uid & Hin & Heq).
    rewrite <- (users_map_get_cong m uid k Heq), (Hget uid Hin) in Hfrom.
    assert (Hcall : In (user_request options uid)
                      (listings_request options q :: map (user_request options) uids))
      by (right; apply in_map, Hin).
    destruct (resolved uid) as [u|] eqn:Hr; unfold resolved, lookup in Hr.
    + exists k, uid, u. repeat split; auto.
      * intros Hnull. destruct (entry_of_contract _ _ _ Hr) as (_ & _ & _ & Hne).
        congruence.
      * unfold lookup. revert Hr.
        destruct (fetch (user_request options uid)); simpl; intros; discriminate.
    + exists k, uid, JNull. repeat split; auto.
      intros _. unfold lookup.
      destruct (Hlook uid (Hsub uid Hin)) as [Hf|[u Hu]]; congruence.
Qed.
End Lookups.

(* ================================================================== *)
(** ** Order and frame of the response *)
(* ================================================================== *)

Lemma write_error_payload c reason r :
  write_error c reason = inr r -> exists s, payload r = error_envelope s.
Proof.
  unfold write_error, write_json.
  destruct (HTTPStatus_phrase c); [|discriminate].
  destruct (no_body_status c); [discriminate|].
  intros H; inversion H; subst. simpl. eauto.
Qed.

Lemma get_except_payload e r :
  get_except e = inr r -> exists s, payload r = error_envelope s.
Proof. destruct e; simpl; apply write_error_payload. Qed.

Lemma served_except e r :
  served (outcome_of (get_except e)) = Some r -> exists s, payload r = error_envelope s.
Proof.
  destruct (get_except e) as [e'|r'] eqn:He; simpl; intros H; inversion H; subst.
  - simpl. eauto.
  - eapply get_except_payload; eauto.
Qed.

Lemma served_guarded c r :
  served (guarded c) = Some r -> c = inr r \/ exists s, payload r = error_envelope s.
Proof.
  destruct c as [e|r']; simpl.
  - intros H. right. eapply served_except; eauto.
  - intros H; inversion H; auto.
Qed.

Lemma error_not_success s out : error_envelope s <> success_payload out.
Proof. unfold error_envelope, success_payload. congruence. Qed.

(** C3. In every successful answer of getListings the listings are the
    backend's, one for one and in the backend's order; each is the
    backend's record with user_id removed and user set, every other
    field as it was and in its place. This holds for every schedule,
    so whatever the order in which the lookups complete. *)
Theorem C3_order_and_frame options fetch sched q items r out :
  page_returned options fetch q items ->
  snd (getListings options fetch sched q) = Some r ->
  payload r = success_payload out ->
  exists outs,
    out = JArr outs
    /\ List.length outs = List.length items
    /\ Forall2 (fun l e => exists u, enriched_from l e u) items outs.
Proof.
  intros Hpage Hr Hout.
  destruct items as [|l items'].
  - rewrite (getListings_empty options fetch sched q Hpage) in Hr.
    inversion Hr; subst. inversion Hout; subst.
    exists []. repeat split. constructor.
  - destruct Hpage as (resp & d & Hf & Hl & Hd).
    rewrite getListings_run, PublicListingsHandler_get_run, Hf in Hr.
    unfold json_loads in Hr. rewrite Hl in Hr.
    cbn [bind ret Monad_Result py_get] in Hr. rewrite Hd in Hr.
    cbn [truthy py_iter bind ret Monad_Result] in Hr.
    destruct (mapM user_id_of (l :: items')) as [e|ids].
    { cbn [snd] in Hr. apply served_except in Hr as [s Hs].
      rewrite Hs in Hout. destruct (error_not_success _ _ Hout). }
    cbn [snd] in Hr. apply served_guarded in Hr as [Hc|[s Hs]].
    2:{ rewrite Hs in Hout. destruct (error_not_success _ _ Hout). }
    destruct (foldM absorb _ []) as [e|m]; [discriminate|].
    cbn [bind Monad_Result] in Hc.
    destruct (mapM (enrich m) (l :: items')) as [e|outs] eqn:Hm; [discriminate|].
    inversion Hc; subst r. inversion Hout; subst out.
    apply mapM_Forall2 in Hm.
    exists outs. repeat split.
    + symmetry. eapply Forall2_length; eauto.
    + eapply Forall2_impl; [|exact Hm].
      intros a b Hab. destruct (enrich_inv _ _ _ Hab) as [uid Hown].
      destruct (enrich_owner m a uid Hown) as (b' & Hb' & Hfrom).
      assert (b' = b) by congruence. subst b'. eauto.
Qed.

(* ================================================================== *)
(** ** Failures of the primary call *)
(* ================================================================== *)

(** A primary fetch of getListings that raises [HTTPClientError] is
    answered by the first [except] clause alone, with no fan-out. *)
Lemma getListings_primary_error options fetch sched q c message response :
  fetch (listings_request options q) = inl (HTTPClientError c message response) ->
  getListings options fetch sched q
  = ([listings_request options q],
     served (outcome_of
               (write_error c
                  (Some ("Upstream service error: "
                         ++ upstream_detail message response))))).
Proof.
  intros Hf. rewrite getListings_run, PublicListingsHandler_get_run, Hf.
  reflexivity.
Qed.

(** For a status that [http.HTTPStatus] knows and that may carry a
    body, the status is passed on and the message wraps the body of the
    backend's response. *)
Lemma getListings_upstream_status options fetch sched q S message resp phrase :
  fetch (listings_request options q) = inl (HTTPClientError S message (Some resp)) ->
  HTTPStatus_phrase S = Some phrase ->
  no_body_status S = false ->
  getListings options fetch sched q
  = ([listings_request options q],
     Some {| status := S;
             payload := error_envelope
                          ("Upstream service error: " ++ bytes_repr (raw (body resp))) |}).
Proof.
  intros Hf Hp Hn. rewrite (getListings_primary_error _ _ _ _ _ _ _ Hf).
  unfold write_error, write_json. rewrite Hp, Hn. reflexivity.
Qed.

(** C5. The propagation of the upstream status fails for a status that
    is not a member of [http.HTTPStatus]: [write_error] raises while it
    evaluates the default of its reason, the exception leaves the
    handler, and the gateway answers 500 with the phrase of 500, not
    the upstream status with a message wrapping the upstream body. No
    user lookup is issued. *)
Theorem C5_unknown_upstream_status_answers_500 options fetch sched q S message response :
  fetch (listings_request options q) = inl (HTTPClientError S message response) ->
  HTTPStatus_phrase S = None ->
  getListings options fetch sched q
  = ([listings_request options q],
     Some {| status := 500; payload := error_envelope "Internal Server Error" |}).
Proof.
  intros Hf Hp. rewrite (getListings_primary_error _ _ _ _ _ _ _ Hf).
  unfold write_error. rewrite Hp. reflexivity.
Qed.

Lemma C5_unknown_upstream_status_answers_500_witness :
  getListings default_options (Worlds.fetch_status 520 "Unknown" "down")
    Worlds.sched_fifo Worlds.no_arguments
  = ([listings_request default_options Worlds.no_arguments],
     Some {| status := 500; payload := error_envelope "Internal Server Error" |}).
Proof.
  apply (C5_unknown_upstream_status_answers_500 default_options
           (Worlds.fetch_status 520 "Unknown" "down") Worlds.sched_fifo
           Worlds.no_arguments 520 "Unknown"
           (Some {| code := 520; body := Worlds.plain_body "down" |}));
    reflexivity.
Defined.

(** C6, as the specification has it, fails: with nothing listening on
    the listing service's port the primary fetch raises a connection
    error, a transport fault, and the gateway answers 500 with the
    message of an internal error, not 502. *)
Lemma C6_refused_connection_answers_500 :
  primary_request default_options (ListingsFetch Worlds.no_arguments)
  = Some (listings_request default_options Worlds.no_arguments)
  /\ transport_fault
       (Worlds.fetch_refused (listings_request default_options Worlds.no_arguments))
     = true
  /\ snd (gateway default_options Worlds.fetch_refused Worlds.sched_fifo
            (ListingsFetch Worlds.no_arguments))
     = Some internal_error
  /\ ~ (exists r,
          snd (gateway default_options Worlds.fetch_refused Worlds.sched_fifo
                 (ListingsFetch Worlds.no_arguments)) = Some r
          /\ 502 <= status r <= 504).
Proof.
  repeat split; try reflexivity.
  intros (r & Hr & Hs). vm_compute in Hr. inversion Hr; subst r.
  simpl in Hs. lia.
Qed.

(** C6, amended. A primary call (the listings fetch, or a create that
    reached its backend call) whose fetch raises an exception other
    than [HTTPClientError], as connection and name resolution faults
    do, is answered 500 with the fixed message of an internal error;
    the exception's text is not in the answer, and the call is the only
    one issued. *)
Theorem C6_transport_fault_answers_500 options fetch sched p r cls :
  primary_request options p = Some r ->
  fetch r = inl (PyError cls) ->
  gateway options fetch sched p
  = ([r],
     Some {| status := 500;
             payload := error_envelope "An internal server error occurred." |}).
Proof.
  intros Hp Hf. destruct p as [q|b|b]; simpl in Hp.
  - inversion Hp; subst r. simpl.
    rewrite getListings_run, PublicListingsHandler_get_run, Hf. reflexivity.
  - destruct (loads b) as [parsed| |] eqn:Hl; try discriminate.
    destruct (urlencode parsed) as [e|post_data] eqn:Hu; try discriminate.
    inversion Hp; subst r. simpl.
    unfold createListing, execute, PublicListingsHandler_post, try_except,
      lift, await, http_client_fetch, json_loads.
    rewrite Hl. cbn [bind ret Monad_M Monad_Result]. rewrite Hu.
    cbn [app]. rewrite Hf. reflexivity.
  - destruct (loads b) as [[| | | | |d]| |] eqn:Hl; try discriminate.
    destruct (dict_get String.eqb d "name") as [name|] eqn:Hn; try discriminate.
    destruct (truthy name) eqn:Ht; try discriminate.
    inversion Hp; subst r. simpl.
    unfold createUser, execute, PublicUsersHandler_post, try_except,
      lift, await, http_client_fetch, json_loads.
    rewrite Hl. cbn [bind ret Monad_M Monad_Result py_get]. rewrite Hn, Ht.
    cbn [negb urlencode ret Monad_Result app]. rewrite Hf. reflexivity.
Qed.

Lemma C6_transport_fault_answers_500_witness :
  gateway default_options Worlds.fetch_refused Worlds.sched_fifo
    (CreateUser (Worlds.json_body "{}" (JObj [("name", JStr "Ann")])))
  = ([create_user_request default_options [("name", JStr "Ann")]],
     Some {| status := 500;
             payload := error_envelope "An internal server error occurred." |}).
Proof.
  apply (C6_transport_fault_answers_500 default_options Worlds.fetch_refused
           Worlds.sched_fifo
           (CreateUser (Worlds.json_body "{}" (JObj [("name", JStr "Ann")])))
           (create_user_request default_options [("name", JStr "Ann")])
           "ConnectionRefusedError");
    reflexivity.
Defined.

(* ================================================================== *)
(** ** Validation of createUser *)
(* ================================================================== *)

(** C7, as stated, fails on a JSON body that is not an object. The
    bodies [[]] and [null] have no [name] key, and reading [name] off
    them raises: the answer is 500, not 400. No call is made. *)
Lemma C7_body_that_is_no_object_answers_500 :
  field (JArr []) "name" = None
  /\ createUser default_options Worlds.fetch_refused (Worlds.json_body "[]" (JArr []))
     = ([], Some internal_error)
  /\ field JNull "name" = None
  /\ createUser default_options Worlds.fetch_refused (Worlds.json_body "null" JNull)
     = ([], Some internal_error)
  /\ status internal_error = 500.
Proof. repeat split. Qed.

(** C7, amended. A [POST /public-api/users] whose JSON body is an
    object that has no [name], or a [name] that is empty (or otherwise
    false: null, zero, an empty list or object), is answered 400 with
    a message that names the missing key, and no call is made to the
    user backend. *)
Theorem C7_missing_name_is_refused_locally options fetch request_body d :
  loads request_body = Loads (JObj d) ->
  match dict_get String.eqb d "name" with
  | Some v => truthy v = false
  | None => True
  end ->
  createUser options fetch request_body
  = ([],
     Some {| status := 400;
             payload := error_envelope "JSON body must contain a 'name' key." |}).
Proof.
  intros Hl Hn.
  unfold createUser, execute, PublicUsersHandler_post, try_except, lift, json_loads.
  rewrite Hl. cbn [bind ret Monad_M Monad_Result py_get].
  destruct (dict_get String.eqb d "name") as [v|].
  - rewrite Hn. reflexivity.
  - reflexivity.
Qed.

Lemma C7_missing_name_is_refused_locally_witness :
  createUser default_options Worlds.fetch_refused (Worlds.json_body "{}" (JObj []))
  = ([],
     Some {| status := 400;
             payload := error_envelope "JSON body must contain a 'name' key." |}).
Proof.
  apply (C7_missing_name_is_refused_locally default_options Worlds.fetch_refused
           (Worlds.json_body "{}" (JObj [])) []);
    [reflexivity | exact I].
Defined.

(* ================================================================== *)
(** ** Lookups answered without a user *)
(* ================================================================== *)

Lemma foldM_absorb_inv rs : forall m m',
  foldM absorb rs m = inr m' ->
  exists es,
    Forall2 (fun r e => entry_of r = inr e) rs es
    /\ m' = fold_left add_entry es m.
Proof.
  induction rs as [|r rs IH]; intros m m' H; simpl in H.
  - inversion H; subst. exists []. split; constructor.
  - rewrite absorb_entry in H.
    destruct (entry_of r) as [x|e] eqn:He; simpl in H; [discriminate|].
    destruct (IH _ _ H) as (es & H1 & H2).
    exists (e :: es). split; [constructor; auto|exact H2].
Qed.

(** A record is in [users_map] under a key only if it was there or a
    response brought it under that key. *)
Lemma fold_add_entry_get es : forall (m : users_map_t) k u,
  dict_get py_eqb (fold_left add_entry es m) k = Some u ->
  dict_get py_eqb m k = Some u
  \/ exists k', In (Some (k', u)) es /\ py_eqb k' k = true.
Proof.
  induction es as [|e es IH]; intros m k u H; simpl in *; auto.
  destruct (IH _ _ _ H) as [H1|(k' & Hin & Hk')].
  - destruct e as [[k1 u1]|]; simpl in H1; auto.
    rewrite (dict_get_set py_eqb py_eqb_refl py_eqb_cong) in H1.
    destruct (py_eqb k1 k) eqn:Hk1; auto.
    inversion H1; subst. right. exists k1. auto.
  - right. exists k'. auto.
Qed.

Lemma foldM_absorb_ext rs rs' : forall m,
  Forall2 (fun r r' => entry_of r = entry_of r') rs rs' ->
  foldM absorb rs m = foldM absorb rs' m.
Proof.
  intros m H. revert m. induction H as [|r r' rs rs' Hr _ IH]; intros m; simpl; auto.
  rewrite !absorb_entry, Hr.
  destruct (entry_of r') as [x|e]; simpl; auto.
Qed.

Lemma entry_of_userless resp d :
  loads (body resp) = Loads (JObj d) ->
  match dict_get String.eqb d "user" with
  | Some v => truthy v = false
  | None => True
  end ->
  entry_of (inr resp) = inr None.
Proof.
  intros Hl Hu. unfold entry_of, json_loads. rewrite Hl.
  cbn [bind ret Monad_Result py_get].
  destruct (dict_get String.eqb d "user") as [v|].
  - rewrite Hu. reflexivity.
  - reflexivity.
Qed.

Lemma user_request_url options a b :
  url (user_request options a) = url (user_request options b) ->
  user_request options a = user_request options b.
Proof. unfold user_request. simpl. intros ->. reflexivity. Qed.

Lemma listings_request_not_lookup options q uid :
  listings_request options q <> user_request options uid.
Proof. unfold listings_request, user_request, query_params. intros H. inversion H. Qed.

(** C10, as stated, fails in two ways. A lookup answered 200 with a
    JSON array has no user field in its decoded body, and the request
    ends in 500: the loop raises. And with the lookup of user 7
    answered without a user while the lookup of user 9 is answered
    with the record of user 7, the listing of user 7 gets that record,
    not null. *)
Lemma C10_userless_answers_that_break_it :
  (lacks_user (Worlds.fetch_array (user_request default_options (KInt 7))) = true
   /\ getListings default_options Worlds.fetch_array Worlds.sched_fifo
        Worlds.no_arguments
      = ([listings_request default_options Worlds.no_arguments;
          user_request default_options (KInt 7)],
         Some internal_error))
  /\ (lacks_user (Worlds.fetch_crossed (user_request default_options (KInt 7))) = true
      /\ snd (getListings default_options Worlds.fetch_crossed Worlds.sched_fifo
                Worlds.no_arguments)
         = Some (success
                   [ JObj [("id", JInt 1); ("title", JStr "flat");
                           ("user", Worlds.user_of 7 "Ann")];
                     JObj [("id", JInt 2); ("title", JStr "house");
                           ("user", JNull)] ])).
Proof. repeat split; reflexivity. Qed.

Lemma no_entry_under options (fetch : Request -> FetchResult) uid us : forall es,
  Forall2 (fun r e => entry_of r = inr e)
    (map fetch (map (user_request options) us)) es ->
  (forall uid' k u, In uid' us ->
     entry_of (fetch (user_request options uid')) = inr (Some (k, u)) ->
     py_eqb k uid = false) ->
  forall k u, In (Some (k, u)) es -> py_eqb k uid = false.
Proof.
  induction us as [|a us IH]; intros es Hes Hnone k u Hin;
    inversion Hes; subst; simpl in Hin.
  - destruct Hin.
  - destruct Hin as [->|Hin].
    + eapply (Hnone a); simpl; eauto.
    + eapply IH; eauto. intros uid' k' u' Huid'. apply Hnone. simpl. auto.
Qed.

Lemma absorb_keyed_by_body_id m resp d u v k :
  loads (body resp) = Loads (JObj d) ->
  dict_get String.eqb d "user" = Some u ->
  truthy u = true ->
  field u "id" = Some v ->
  as_key v = Some k ->
  absorb m (inr resp) = inr (dict_set py_eqb m k u).
Proof.
  intros Hl Hu Ht Hv Hk. unfold absorb, json_loads. rewrite Hl.
  cbn [bind ret Monad_Result py_get]. rewrite Hu, Ht.
  destruct u as [| | | | |fields]; simpl in Hv; try discriminate.
  unfold py_getitem, hash_key. rewrite Hv. cbn [bind ret Monad_Result].
  rewrite Hk. reflexivity.
Qed.

(** C10, amended. A lookup answered 2xx with a JSON object that has no
    truthy user field is treated as a failed lookup is: the loop adds
    nothing to the map for it and raises nothing, and the answer of the
    request is the one it would be had that lookup failed. In a
    successful answer every listing owned by that id has user null,
    unless some lookup's response brought a record under that id: the
    map is keyed by the id inside the body of a response, whatever id
    was queried. *)
Theorem C10_userless_answer_is_absorbed options fetch sched q items ids uid resp d :
  page_returned options fetch q items ->
  Forall2 owner_is items ids ->
  In uid ids ->
  fetch (user_request options uid) = inr resp ->
  loads (body resp) = Loads (JObj d) ->
  match dict_get String.eqb d "user" with
  | Some v => truthy v = false
  | None => True
  end ->
  (forall m e,
     absorb m (fetch (user_request options uid)) = inr m
     /\ absorb m (inl e) = inr m)
  /\ (forall fetch',
        fetch' (listings_request options q) = fetch (listings_request options q) ->
        (forall uid', user_request options uid' <> user_request options uid ->
           fetch' (user_request options uid') = fetch (user_request options uid')) ->
        lookup_failed (fetch' (user_request options uid)) = true ->
        getListings options fetch' sched q = getListings options fetch sched q)
  /\ (forall out,
        snd (getListings options fetch sched q) = Some (success out) ->
        (forall uid' k u, In uid' ids ->
           entry_of (fetch (user_request options uid')) = inr (Some (k, u)) ->
           py_eqb k uid = false) ->
        Forall2 (fun l e =>
                   forall k, owner_is l k -> py_eqb k uid = true ->
                             field e "user" = Some JNull) items out)
  /\ (forall m resp' d' u v k,
        loads (body resp') = Loads (JObj d') ->
        dict_get String.eqb d' "user" = Some u ->
        truthy u = true ->
        field u "id" = Some v ->
        as_key v = Some k ->
        absorb m (inr resp') = inr (dict_set py_eqb m k u)).
Proof.
  intros Hpage Hown Hin Hf Hl Hu.
  pose proof (entry_of_userless resp d Hl Hu) as Hentry.
  split; [|split; [|split]].
  - intros m e. rewrite Hf, !absorb_entry, Hentry. split; reflexivity.
  - intros fetch' Hprim Hsame Hfail.
    assert (Hpage' : page_returned options fetch' q items).
    { destruct Hpage as (r0 & d0 & H0 & H1 & H2). exists r0, d0.
      rewrite Hprim. auto. }
    destruct items as [|l0 items'].
    + rewrite !getListings_empty; auto.
    + rewrite (getListings_fanout options fetch' sched q _ ids Hpage')
        by (auto; discriminate).
      rewrite (getListings_fanout options fetch sched q _ ids Hpage)
        by (auto; discriminate).
      f_equal. f_equal. f_equal.
      rewrite (foldM_absorb_ext
                 (map fetch' (map (user_request options) (set_order sched (set_of ids))))
                 (map fetch (map (user_request options) (set_order sched (set_of ids)))));
        [reflexivity|].
      induction (set_order sched (set_of ids)) as [|a us IH]; simpl; constructor; auto.
      destruct (string_dec (url (user_request options a))
                           (url (user_request options uid))) as [Heq|Hne].
      * rewrite (user_request_url _ _ _ Heq), Hf, Hentry.
        apply entry_of_failed, Hfail.
      * rewrite Hsame; auto. congruence.
  - intros out Hout Hnone.
    destruct items as [|l0 items'].
    { rewrite getListings_empty in Hout by exact Hpage.
      inversion Hout; subst. constructor. }
    rewrite (getListings_fanout options fetch sched q _ ids Hpage) in Hout
      by (auto; discriminate).
    cbn [snd] in Hout. apply served_guarded in Hout as [Hc|[s Hs]].
    2:{ simpl in Hs. destruct (error_not_success _ _ (eq_sym Hs)). }
    destruct (foldM absorb _ []) as [e|m] eqn:Hfold; [discriminate|].
    cbn [bind Monad_Result] in Hc.
    destruct (mapM (enrich m) (l0 :: items')) as [e|outs] eqn:Hm; [discriminate|].
    assert (outs = out) by (unfold write_json in Hc; simpl in Hc; inversion Hc; auto).
    subst outs.
    apply foldM_absorb_inv in Hfold as (es & Hes & ->).
    assert (Hget : forall k, py_eqb k uid = true ->
              dict_get py_eqb (fold_left add_entry es []) k = None).
    { intros k Hk.
      destruct (dict_get py_eqb (fold_left add_entry es []) k) as [u|] eqn:Hg; auto.
      apply fold_add_entry_get in Hg as [Hg|(k' & Hk' & Hkk)]; [discriminate|].
      assert (Hfalse : py_eqb k' uid = false).
      { eapply no_entry_under; eauto.
        intros uid' k0 u0 Huid'. apply Hnone.
        destruct (set_of_spec ids) as (_ & _ & Hi). apply Hi.
        eapply Permutation_in; [apply set_order_perm|exact Huid']. }
      rewrite (py_eqb_cong k' k uid Hkk) in Hfalse. congruence. }
    apply mapM_Forall2 in Hm.
    eapply Forall2_impl; [|exact Hm].
    intros l e Hle k Hk Hkuid.
    destruct (enrich_owner (fold_left add_entry es []) l k Hk) as (e' & He' & Hfrom).
    assert (e' = e) by congruence. subst e'.
    rewrite (Hget k Hkuid) in Hfrom.
    destruct Hfrom as (d0 & d1 & _ & -> & Huser & _). exact Huser.
  - intros m resp' d' u v k. apply absorb_keyed_by_body_id.
Qed.

(* ================================================================== *)
(** ** The user service *)
(* ================================================================== *)

Lemma insert_desc_perm r l : Permutation (insert_desc r l) (r :: l).
Proof.
  induction l as [|a l IH]; simpl; auto.
  destruct (created_at a <=? created_at r); auto.
  eapply perm_trans; [apply perm_skip, IH|apply perm_swap].
Qed.

Lemma insert_desc_sorted r l : newest_first l -> newest_first (insert_desc r l).
Proof.
  unfold newest_first. induction 1 as [|a l Hs IH Ha]; simpl.
  - repeat constructor.
  - destruct (Z.leb_spec (created_at a) (created_at r)) as [Hle|Hlt].
    + constructor; [constructor; auto|].
      constructor; auto.
      eapply Forall_impl; [|exact Ha]. simpl. intros b Hb. lia.
    + constructor; auto.
      eapply Permutation_Forall; [apply Permutation_sym, insert_desc_perm|].
      constructor; auto. lia.
Qed.

Lemma order_by_perm rows : Permutation (order_by_created_at_desc rows) rows.
Proof.
  induction rows as [|r rows IH]; simpl; auto.
  eapply perm_trans; [apply insert_desc_perm|]. auto.
Qed.

Lemma order_by_sorted rows : newest_first (order_by_created_at_desc rows).
Proof.
  induction rows as [|r rows IH]; simpl.
  - constructor.
  - apply insert_desc_sorted, IH.
Qed.

Lemma Forall_firstn {A} (P : A -> Prop) n : forall l, Forall P l -> Forall P (firstn n l).
Proof.
  induction n as [|n IH]; intros l H; simpl; [constructor|].
  destruct H; constructor; auto.
Qed.

Lemma Forall_skipn {A} (P : A -> Prop) n : forall l, Forall P l -> Forall P (skipn n l).
Proof.
  induction n as [|n IH]; intros l H; simpl; auto.
  destruct H; auto.
Qed.

Lemma sorted_firstn {A} (R : A -> A -> Prop) n : forall l,
  StronglySorted R l -> StronglySorted R (firstn n l).
Proof.
  induction n as [|n IH]; intros l H; simpl; [constructor|].
  destruct H; constructor; auto using Forall_firstn.
Qed.

Lemma sorted_skipn {A} (R : A -> A -> Prop) n : forall l,
  StronglySorted R l -> StronglySorted R (skipn n l).
Proof.
  induction n as [|n IH]; intros l H; simpl; auto.
  destruct H; auto. constructor.
Qed.

Lemma Forall_limit_offset {A} (P : A -> Prop) limit offset l :
  Forall P l -> Forall P (limit_offset limit offset l).
Proof.
  intros H. unfold limit_offset.
  destruct (limit <? 0); auto using Forall_firstn, Forall_skipn.
Qed.

(** What [GET /users] answers once its arguments are integers that
    SQLite takes. *)
Lemma UsersHandler_get_page db pn ps :
  sqlite_int ps = true ->
  sqlite_int ((pn - 1) * ps) = true ->
  UsersHandler_get db (ArgGiven (Some pn)) (ArgGiven (Some ps))
  = inr (users_response
           (limit_offset ps ((pn - 1) * ps) (order_by_created_at_desc (users db)))).
Proof.
  intros H1 H2. unfold UsersHandler_get, select_page, bind_int. simpl.
  rewrite H1, H2. reflexivity.
Qed.

(** C8, as stated, fails: with two users stored, page 1 of size -1 has
    both of them, more than the page size. SQLite reads a negative
    LIMIT as no limit. *)
Lemma C8_negative_page_size_is_no_limit :
  let db := run init_db [PostUsers (Some "Ann") 5; PostUsers (Some "Bob") 9] in
  UsersHandler_get db (ArgGiven (Some 1)) (ArgGiven (Some (-1)))
  = inr (users_response [Worlds.row_of 2 "Bob" 9; Worlds.row_of 1 "Ann" 5])
  /\ ~ (Z.of_nat (List.length [Worlds.row_of 2 "Bob" 9; Worlds.row_of 1 "Ann" 5]) <= -1).
Proof. split; [reflexivity|simpl; lia]. Qed.

(** C8, amended. For a page size that is not negative (and arguments
    within SQLite's integers) [GET /users] answers with the users
    newest first, at most page_size of them: the rows that follow the
    first (page_num - 1) * page_size rows of the whole table ordered by
    creation time descending, a negative product skipping none. *)
Theorem C8_page_of_users_newest_first db pn ps :
  0 <= ps ->
  sqlite_int ps = true ->
  sqlite_int ((pn - 1) * ps) = true ->
  exists page ordered,
    UsersHandler_get db (ArgGiven (Some pn)) (ArgGiven (Some ps))
    = inr (users_response page)
    /\ newest_first page
    /\ Z.of_nat (List.length page) <= ps
    /\ Permutation ordered (users db)
    /\ newest_first ordered
    /\ page = firstn (Z.to_nat ps) (skipn (Z.to_nat ((pn - 1) * ps)) ordered).
Proof.
  intros Hps H1 H2.
  exists (limit_offset ps ((pn - 1) * ps) (order_by_created_at_desc (users db))),
         (order_by_created_at_desc (users db)).
  assert (Hlim : limit_offset ps ((pn - 1) * ps) (order_by_created_at_desc (users db))
                 = firstn (Z.to_nat ps)
                     (skipn (Z.to_nat ((pn - 1) * ps))
                        (order_by_created_at_desc (users db)))).
  { unfold limit_offset. destruct (Z.ltb_spec ps 0); [lia|reflexivity]. }
  repeat split.
  - apply UsersHandler_get_page; auto.
  - rewrite Hlim. apply sorted_firstn, sorted_skipn, order_by_sorted.
  - rewrite Hlim. pose proof (firstn_le_length (Z.to_nat ps)
      (skipn (Z.to_nat ((pn - 1) * ps)) (order_by_created_at_desc (users db)))).
    lia.
  - apply order_by_perm.
  - apply order_by_sorted.
  - exact Hlim.
Qed.

Lemma C8_page_of_users_newest_first_witness :
  exists page ordered,
    UsersHandler_get
      (run init_db [PostUsers (Some "Ann") 5; PostUsers (Some "Bob") 9;
                    PostUsers (Some "Cid") 7])
      (ArgGiven (Some 2)) (ArgGiven (Some 2))
    = inr (users_response page)
    /\ newest_first page
    /\ Z.of_nat (List.length page) <= 2
    /\ Permutation ordered
         (users (run init_db [PostUsers (Some "Ann") 5; PostUsers (Some "Bob") 9;
                              PostUsers (Some "Cid") 7]))
    /\ newest_first ordered
    /\ page = firstn (Z.to_nat 2) (skipn (Z.to_nat ((2 - 1) * 2)) ordered).
Proof.
  apply (C8_page_of_users_newest_first
           (run init_db [PostUsers (Some "Ann") 5; PostUsers (Some "Bob") 9;
                         PostUsers (Some "Cid") 7]) 2 2);
    [lia | reflexivity | reflexivity].
Defined.

Lemma write_error_status c reason r : write_error c reason = inr r -> status r = c.
Proof.
  unfold write_error, write_json.
  destruct (HTTPStatus_phrase c); [|discriminate].
  destruct (no_body_status c); [discriminate|].
  intros H; inversion H; reflexivity.
Qed.

(** What a [POST /users] that answers 201 did. *)
Lemma UsersHandler_post_created db name_arg time_now db' r :
  UsersHandler_post db name_arg time_now = (db', inr r) ->
  status r = 201 ->
  exists row,
    r = created_response row
    /\ created_at row = time_now /\ updated_at row = time_now
    /\ users db' = (users db ++ [row])%list.
Proof.
  unfold UsersHandler_post, insert_user, bind_int. intros H Hs.
  destruct name_arg as [[|c n]|];
    try (injection H as Hdb Hr; subst; simpl in Hs; lia).
  destruct (sqlite_int time_now); simpl in H;
    try (injection H as Hdb Hr; subst; simpl in Hs; lia).
  destruct (sqlite_int (last_rowid db + 1)); simpl in H;
    try (injection H as Hdb Hr; subst; simpl in Hs; lia).
  injection H as Hdb Hr. subst db' r.
  exists {| id := last_rowid db + 1; name := String c n;
            created_at := time_now; updated_at := time_now |}.
  repeat split.
Qed.

Lemma UsersHandler_post_keeps db name_arg time_now :
  Forall stamps_agree (users db) ->
  Forall stamps_agree (users (fst (UsersHandler_post db name_arg time_now))).
Proof.
  intros H. unfold UsersHandler_post.
  destruct name_arg as [[|c n]|]; simpl; auto.
  unfold insert_user, bind_int.
  destruct (sqlite_int time_now); simpl; auto.
  destruct (sqlite_int (last_rowid db + 1)); simpl; auto.
  apply Forall_app. split; auto. repeat constructor.
Qed.

Lemma handle_keeps db c :
  Forall stamps_agree (users db) ->
  Forall stamps_agree (users (fst (handle db c))).
Proof.
  intros H. destruct c as [pn ps|n t|uid]; simpl; auto.
  pose proof (UsersHandler_post_keeps db n t H) as Hp.
  destruct (UsersHandler_post db n t); exact Hp.
Qed.

(** No request makes a stored row's two stamps differ. *)
Lemma run_keeps calls : forall db,
  Forall stamps_agree (users db) ->
  Forall stamps_agree (users (run db calls)).
Proof.
  unfold run. induction calls as [|c calls IH]; intros db H; simpl; auto.
  apply IH, handle_keeps, H.
Qed.

(** C9. A user created by [POST /users] has created_at and updated_at
    both equal to the one reading of the clock; no request changes a
    stored row, so after any sequence of requests on a new database
    every stored user, and so every user that [GET /users/{id}] or
    [GET /users] returns, has created_at equal to updated_at. *)
Theorem C9_created_at_equals_updated_at calls :
  let db := run init_db calls in
  Forall stamps_agree (users db)
  /\ (forall name_arg time_now db' r,
        UsersHandler_post db name_arg time_now = (db', inr r) ->
        status r = 201 ->
        exists row,
          r = created_response row
          /\ created_at row = time_now /\ updated_at row = time_now
          /\ users db' = (users db ++ [row])%list)
  /\ (forall user_id r,
        UserHandler_get db user_id = inr r ->
        status r = 200 ->
        exists row,
          r = user_response row /\ In row (users db) /\ stamps_agree row)
  /\ (forall page_num page_size r,
        UsersHandler_get db page_num page_size = inr r ->
        status r = 200 ->
        exists rows,
          r = users_response rows /\ Forall stamps_agree rows).
Proof.
  intros db.
  assert (Hinv : Forall stamps_agree (users db))
    by (apply run_keeps; constructor).
  split; [exact Hinv|split; [|split]].
  - intros name_arg time_now db' r. apply UsersHandler_post_created.
  - intros [user_id|] r H Hs; unfold UserHandler_get, bind_int in H.
    2:{ apply write_error_status in H. lia. }
    destruct (sqlite_int user_id); simpl in H; [|discriminate].
    destruct (find (fun r0 => id r0 =? user_id) (users db)) as [row|] eqn:Hfind.
    + inversion H; subst. exists row.
      apply find_some in Hfind as [Hin _].
      repeat split; auto. eapply Forall_forall in Hinv; eauto.
    + apply write_error_status in H. lia.
  - intros page_num page_size r H Hs. unfold UsersHandler_get in H.
    destruct (pn <- int_argument page_num 1 ;;
              ps <- int_argument page_size 10 ;; ret (pn, ps)) as [e|[pn ps]].
    + apply write_error_status in H. lia.
    + unfold select_page, bind_int in H.
      destruct (sqlite_int ps); simpl in H; [|discriminate].
      destruct (sqlite_int ((pn - 1) * ps)); simpl in H; [|discriminate].
      inversion H; subst. eexists. split; [reflexivity|].
      apply Forall_limit_offset.
      eapply Permutation_Forall; [apply Permutation_sym, order_by_perm|exact Hinv].
Qed.

Lemma C9_created_at_equals_updated_at_witness :
  exists row,
    UserHandler_get
      (run init_db [PostUsers (Some "Ann") 1700000000000000; GetUser (Some 1);
                    PostUsers (Some "Bob") 1700000000000001]) (Some 2)
    = inr (user_response row)
    /\ stamps_agree row.
Proof.
  destruct (C9_created_at_equals_updated_at
              [PostUsers (Some "Ann") 1700000000000000; GetUser (Some 1);
               PostUsers (Some "Bob") 1700000000000001])
    as (_ & _ & Hget & _).
  destruct (Hget (Some 2) (user_response (Worlds.row_of 2 "Bob" 1700000000000001))
              eq_refl eq_refl) as (row & Hr & _ & Hrow).
  exists row. split; [rewrite <- Hr; reflexivity | exact Hrow].
Defined.

(* ================================================================== *)
(** ** The theorems of the read path on a concrete page *)
(* ================================================================== *)

Lemma page_7_9_7_returned :
  page_returned default_options Worlds.fetch_7_9_7 Worlds.no_arguments
    Worlds.page_7_9_7.
Proof.
  exists {| code := 200; body := Worlds.listings_body Worlds.page_7_9_7 |},
         [("result", JBool true); ("listings", JArr Worlds.page_7_9_7)].
  repeat split.
Defined.

Lemma page_7_9_7_owners :
  Forall2 owner_is Worlds.page_7_9_7 [KInt 7; KInt 9; KInt 7].
Proof.
  repeat constructor.
  - exists [("id", JInt 1); ("user_id", JInt 7); ("title", JStr "flat")], (JInt 7).
    repeat split.
  - exists [("id", JInt 2); ("user_id", JInt 9); ("title", JStr "house")], (JInt 9).
    repeat split.
  - exists [("id", JInt 3); ("user_id", JInt 7); ("title", JStr "room")], (JInt 7).
    repeat split.
Defined.

Lemma C1_failed_lookups_give_null_users_witness :
  exists out,
    snd (getListings default_options Worlds.fetch_7_9_7 Worlds.sched_lifo
           Worlds.no_arguments)
    = Some {| status := 200;
              payload := JObj [("result", JBool true); ("listings", JArr out)] |}
    /\ Forall2
         (fun l e =>
            exists k uid u,
              owner_is l k /\ py_eqb uid k = true
              /\ In (user_request default_options uid)
                   (fst (getListings default_options Worlds.fetch_7_9_7
                           Worlds.sched_lifo Worlds.no_arguments))
              /\ enriched_from l e u
              /\ (u = JNull
                  <-> lookup_failed
                        (Worlds.fetch_7_9_7 (user_request default_options uid)) = true))
         Worlds.page_7_9_7 out.
Proof.
  apply (C1_failed_lookups_give_null_users default_options Worlds.fetch_7_9_7
           Worlds.sched_lifo Worlds.no_arguments Worlds.page_7_9_7
           [KInt 7; KInt 9; KInt 7] page_7_9_7_returned page_7_9_7_owners).
  intros uid [<-|[<-|[<-|[]]]].
  - right. exists (Worlds.user_of 7 "Ann"). reflexivity.
  - left. reflexivity.
  - right. exists (Worlds.user_of 7 "Ann"). reflexivity.
Defined.

Lemma C2_one_lookup_per_set_element_witness :
  exists uids,
    fst (getListings default_options Worlds.fetch_7_9_7 Worlds.sched_lifo
           Worlds.no_arguments)
    = {| method := GET; url := "http://localhost:6000/listings";
         query := [("page_num", "1"); ("page_size", "10")]; form := None |}
      :: map (fun uid =>
                {| method := GET;
                   url := "http://localhost:7000/users/" ++ py_str uid;
                   query := []; form := None |}) uids
    /\ distinct uids = true
    /\ (forall k, mem k uids = mem k [KInt 7; KInt 9; KInt 7])
    /\ (forall uid, In uid uids -> In uid [KInt 7; KInt 9; KInt 7])
    /\ NoDup (map (fun uid =>
                     {| method := GET;
                        url := "http://localhost:7000/users/" ++ py_str uid;
                        query := []; form := None |}) uids)
    /\ (forall n, In (KInt n) uids <-> In (KInt n) [KInt 7; KInt 9; KInt 7]).
Proof.
  destruct (C2_one_lookup_per_set_element default_options Worlds.fetch_7_9_7
              Worlds.sched_lifo Worlds.no_arguments Worlds.page_7_9_7
              [KInt 7; KInt 9; KInt 7] page_7_9_7_returned page_7_9_7_owners)
    as (uids & H1 & H2 & H3 & H4 & H5).
  exists uids.
  destruct H5 as [H5 H6].
  { intros uid [<-|[<-|[<-|[]]]]; eexists; reflexivity. }
  repeat split; auto; apply H6.
Defined.

Lemma C3_order_and_frame_witness :
  exists outs,
    JArr [ JObj [("id", JInt 1); ("title", JStr "flat");
                 ("user", Worlds.user_of 7 "Ann")];
           JObj [("id", JInt 2); ("title", JStr "house"); ("user", JNull)];
           JObj [("id", JInt 3); ("title", JStr "room");
                 ("user", Worlds.user_of 7 "Ann")] ]
    = JArr outs
    /\ List.length outs = List.length Worlds.page_7_9_7
    /\ Forall2 (fun l e => exists u, enriched_from l e u) Worlds.page_7_9_7 outs.
Proof.
  apply (C3_order_and_frame default_options Worlds.fetch_7_9_7 Worlds.sched_lifo
           Worlds.no_arguments Worlds.page_7_9_7
           (success [ JObj [("id", JInt 1); ("title", JStr "flat");
                            ("user", Worlds.user_of 7 "Ann")];
                      JObj [("id", JInt 2); ("title", JStr "house"); ("user", JNull)];
                      JObj [("id", JInt 3); ("title", JStr "room");
                            ("user", Worlds.user_of 7 "Ann")] ])
           _ page_7_9_7_returned);
    reflexivity.
Defined.

Lemma C4_empty_page_no_fanout_witness :
  getListings default_options Worlds.fetch_empty Worlds.sched_lifo Worlds.no_arguments
  = ([listings_request default_options Worlds.no_arguments],
     Some {| status := 200;
             payload := JObj [("result", JBool true); ("listings", JArr [])] |}).
Proof.
  apply (C4_empty_page_no_fanout default_options Worlds.fetch_empty Worlds.sched_lifo
           Worlds.no_arguments).
  exists {| code := 200; body := Worlds.listings_body [] |},
         [("result", JBool true); ("listings", JArr [])].
  repeat split.
Defined.

Lemma page_7_9_returned (fetch : Request -> FetchResult) :
  fetch (listings_request default_options Worlds.no_arguments)
  = Worlds.ok (Worlds.listings_body
                 [Worlds.listing_of 1 7 "flat"; Worlds.listing_of 2 9 "house"]) ->
  page_returned default_options fetch Worlds.no_arguments
    [Worlds.listing_of 1 7 "flat"; Worlds.listing_of 2 9 "house"].
Proof.
  intros H. eexists. eexists. split; [exact H|]. split; reflexivity.
Defined.

Lemma page_7_9_owners :
  Forall2 owner_is [Worlds.listing_of 1 7 "flat"; Worlds.listing_of 2 9 "house"]
    [KInt 7; KInt 9].
Proof.
  repeat constructor.
  - exists [("id", JInt 1); ("user_id", JInt 7); ("title", JStr "flat")], (JInt 7).
    repeat split.
  - exists [("id", JInt 2); ("user_id", JInt 9); ("title", JStr "house")], (JInt 9).
    repeat split.
Defined.

Lemma C10_userless_answer_is_absorbed_witness :
  (forall m e,
     absorb m (Worlds.fetch_userless (user_request default_options (KInt 7))) = inr m
     /\ absorb m (inl e) = inr m)
  /\ getListings default_options Worlds.fetch_userless_404 Worlds.sched_lifo
       Worlds.no_arguments
     = getListings default_options Worlds.fetch_userless Worlds.sched_lifo
         Worlds.no_arguments
  /\ Forall2 (fun l e =>
                forall k, owner_is l k -> py_eqb k (KInt 7) = true ->
                          field e "user" = Some JNull)
       [Worlds.listing_of 1 7 "flat"; Worlds.listing_of 2 9 "house"]
       [ JObj [("id", JInt 1); ("title", JStr "flat"); ("user", JNull)];
         JObj [("id", JInt 2); ("title", JStr "house");
               ("user", Worlds.user_of 9 "Bob")] ]
  /\ absorb [] (Worlds.ok (Worlds.user_body (Worlds.user_of 9 "Bob")))
     = inr [(KInt 9, Worlds.user_of 9 "Bob")].
Proof.
  destruct (C10_userless_answer_is_absorbed default_options Worlds.fetch_userless
              Worlds.sched_lifo Worlds.no_arguments
              [Worlds.listing_of 1 7 "flat"; Worlds.listing_of 2 9 "house"]
              [KInt 7; KInt 9] (KInt 7)
              {| code := 200;
                 body := Worlds.json_body "result" (JObj [("result", JBool true)]) |}
              [("result", JBool true)]
              (page_7_9_returned Worlds.fetch_userless eq_refl)
              page_7_9_owners (or_introl eq_refl) eq_refl eq_refl I)
    as (HA & HB & HC & HD).
  split; [exact HA|split; [|split]].
  - apply HB; [reflexivity| |reflexivity].
    intros uid' Hne. unfold Worlds.fetch_userless_404, Worlds.fetch_userless.
    destruct (String.eqb (url (user_request default_options uid'))
                "http://localhost:6000/listings"); [reflexivity|].
    destruct (String.eqb (url (user_request default_options uid'))
                "http://localhost:7000/users/7") eqn:E; [|reflexivity].
    apply String.eqb_eq in E. destruct Hne.
    apply user_request_url. exact E.
  - apply HC; [reflexivity|].
    intros uid' k u [<-|[<-|[]]] He.
    + discriminate He.
    + injection He as <- _. reflexivity.
  - apply (HD [] {| code := 200; body := Worlds.user_body (Worlds.user_of 9 "Bob") |}
              [("result", JBool true); ("user", Worlds.user_of 9 "Bob")]
              (Worlds.user_of 9 "Bob") (JInt 9) (KInt 9));
      reflexivity.
Defined.

(* ================================================================== *)
(** ** The embedding at work *)
(* ================================================================== *)

(** getListings always answers: the gathered lookups all settle, so the
    handler is never left pending. *)
Lemma getListings_answers options fetch sched q :
  exists r, snd (getListings options fetch sched q) = Some r.
Proof.
  rewrite getListings_run, PublicListingsHandler_get_run.
  assert (Hs : forall (t : Trace) (o : Outcome Response),
            o <> Pending -> exists r, served (snd (t, o)) = Some r).
  { intros t [r|e|] Ho; simpl; eauto. congruence. }
  assert (Ho : forall c : Result Response, outcome_of c <> Pending)
    by (intros [e|r]; discriminate).
  assert (Hg : forall c : Result Response, guarded c <> Pending).
  { intros [e|r]; simpl; [apply Ho|discriminate]. }
  destruct (fetch (listings_request options q)) as [e|resp]; [apply Hs, Ho|].
  destruct (data <- json_loads (body resp) ;; py_get data "listings" (JArr []))
    as [e|listings]; [apply Hs, Ho|].
  destruct (truthy listings); [|apply Hs, Hg].
  destruct (items <- py_iter listings ;; ids <- mapM user_id_of items ;; ret (items, ids))
    as [e|[items ids]]; [apply Hs, Ho|apply Hs, Hg].
Qed.

Example bytes_repr_plain :
  bytes_repr "down" = String "b" (String squote ("down" ++ String squote "")).
Proof. reflexivity. Qed.

Example bytes_repr_escapes :
  bytes_repr (String (ascii_of_nat 10) (String squote "s"))
  = String "b" (String dquote
      (String bslash (String "n" (String squote (String "s" (String dquote "")))))).
Proof. reflexivity. Qed.

Example py_str_int :
  py_str (KInt 42) = "42" /\ py_str (KInt (-7)) = "-7" /\ py_str (KInt 0) = "0".
Proof. repeat split; reflexivity. Qed.

Example set_of_merges_equal_keys :
  set_of [KInt 5; KInt 7; KInt 5; KBool true; KInt 1; KStr "5"]
  = [KInt 5; KInt 7; KBool true; KStr "5"].
Proof. reflexivity. Qed.

Example HTTPStatus_phrase_values :
  HTTPStatus_phrase 503 = Some "Service Unavailable"
  /\ HTTPStatus_phrase 520 = None /\ HTTPStatus_phrase 599 = None.
Proof. repeat split; reflexivity. Qed.

(** Three listings, two lookups; the answer is the same whether the
    lookups settle in the order they were started or in the reverse. *)
Example getListings_7_9_7 :
  getListings default_options Worlds.fetch_7_9_7 Worlds.sched_fifo Worlds.no_arguments
  = ([ listings_request default_options Worlds.no_arguments;
       user_request default_options (KInt 7);
       user_request default_options (KInt 9) ],
     Some (success
             [ JObj [("id", JInt 1); ("title", JStr "flat");
                     ("user", Worlds.user_of 7 "Ann")];
               JObj [("id", JInt 2); ("title", JStr "house"); ("user", JNull)];
               JObj [("id", JInt 3); ("title", JStr "room");
                     ("user", Worlds.user_of 7 "Ann")] ]))
  /\ snd (getListings default_options Worlds.fetch_7_9_7 Worlds.sched_lifo
            Worlds.no_arguments)
     = snd (getListings default_options Worlds.fetch_7_9_7 Worlds.sched_fifo
              Worlds.no_arguments).
Proof. split; reflexivity. Qed.

(** A 503 of the listing service is passed on, its body wrapped in the
    message. *)
Example getListings_503 :
  getListings default_options
    (Worlds.fetch_status 503 "Service Unavailable" "down")
    Worlds.sched_fifo Worlds.no_arguments
  = ([listings_request default_options Worlds.no_arguments],
     Some {| status := 503;
             payload := error_envelope
                          ("Upstream service error: " ++ bytes_repr "down") |}).
Proof. reflexivity. Qed.

(** A timeout of the primary fetch is the client's error 599 without a
    response; 599 is no member of [http.HTTPStatus] either. *)
Example getListings_timeout :
  getListings default_options Worlds.fetch_timeout Worlds.sched_fifo Worlds.no_arguments
  = ([listings_request default_options Worlds.no_arguments],
     Some {| status := 500; payload := error_envelope "Internal Server Error" |}).
Proof. reflexivity. Qed.

(** The test suite of the user service: ids start at 1, a user is found
    by id, the list is newest first, an unknown id is a 404. *)
Example test_1_create_user :
  snd (handle init_db (PostUsers (Some "Test User") 1700000000000000))
  = Some (created_response (Worlds.row_of 1 "Test User" 1700000000000000)).
Proof. reflexivity. Qed.

Example test_2_get_user_by_id :
  snd (handle (run init_db [PostUsers (Some "Another User") 1700000000000000])
         (GetUser (Some 1)))
  = Some (user_response (Worlds.row_of 1 "Another User" 1700000000000000)).
Proof. reflexivity. Qed.

Example test_3_get_all_users :
  snd (handle (run init_db [PostUsers (Some "User A") 1700000000000000;
                            PostUsers (Some "User B") 1700000000010000])
         (GetUsers ArgMissing ArgMissing))
  = Some (users_response [ Worlds.row_of 2 "User B" 1700000000010000;
                           Worlds.row_of 1 "User A" 1700000000000000 ]).
Proof. reflexivity. Qed.

Example test_4_get_nonexistent_user :
  snd (handle init_db (GetUser (Some 999)))
  = Some {| status := 404;
            payload := error_envelope "User with id 999 not found." |}.
Proof. reflexivity. Qed.

(* ================================================================== *)
(** ** More on the read path: every path of the handler *)
(* ================================================================== *)

Lemma served_except_envelope e :
  exists r s, served (outcome_of (get_except e)) = Some r
              /\ payload r = error_envelope s.
Proof.
  destruct (get_except e) as [e'|r] eqn:He; simpl.
  - eexists. eexists. split; reflexivity.
  - destruct (get_except_payload _ _ He) as [s Hs]. eauto.
Qed.

Lemma mapM_error {A B} (f : A -> Result B) l e :
  mapM f l = inl e -> exists a, In a l /\ f a = inl e.
Proof.
  induction l as [|a l IH]; simpl; [discriminate|].
  destruct (f a) as [e'|b] eqn:Hfa.
  - intros H; inversion H; subst. eauto.
  - destruct (mapM f l) as [e'|bs]; simpl; [|discriminate].
    intros H; inversion H; subst.
    destruct (IH eq_refl) as (a' & Hin & Ha'). eauto.
Qed.

Lemma mapM_fails {A B} (f : A -> Result B) l :
  Exists (fun a => exists e, f a = inl e) l -> exists e, mapM f l = inl e.
Proof.
  induction 1 as [a l [e He]|a l _ [e IH]]; simpl.
  - rewrite He. eauto.
  - destruct (f a); simpl; eauto. rewrite IH. eauto.
Qed.

(** The loops raise what only the last [except] clause catches. *)
Lemma user_id_of_error l e : user_id_of l = inl e -> exists cls, e = PyError cls.
Proof.
  unfold user_id_of, py_getitem, hash_key.
  destruct l as [| | | | |d]; simpl; try (intros H; inversion H; eauto).
  revert H. destruct (dict_get String.eqb d "user_id") as [v|]; simpl;
    [|intros H; inversion H; eauto].
  destruct (as_key v); simpl; intros H; inversion H; eauto.
Qed.

Lemma entry_of_error res e :
  entry_of res = inl e -> e = JSONDecodeError \/ exists cls, e = PyError cls.
Proof.
  unfold entry_of, json_loads, py_get, py_getitem, hash_key.
  destruct res as [e0|resp]; [discriminate|].
  destruct (loads (body resp)) as [j| |]; simpl;
    try (intros H; inversion H; eauto).
  revert H. destruct j as [| | | | |d]; simpl; try (intros H; inversion H; eauto).
  revert H. destruct (truthy _); simpl; [|discriminate].
  destruct (match dict_get String.eqb d "user" with Some v => v | None => JNull end)
    as [| | | | |fields]; simpl; try (intros H; inversion H; eauto).
  revert H. destruct (dict_get String.eqb fields "id") as [v|]; simpl;
    [|intros H; inversion H; eauto].
  destruct (as_key v); simpl; intros H; inversion H; eauto.
Qed.

Lemma foldM_absorb_error rs : forall m e,
  foldM absorb rs m = inl e ->
  e = JSONDecodeError \/ exists cls, e = PyError cls.
Proof.
  induction rs as [|r rs IH]; intros m e H; simpl in H; [discriminate|].
  rewrite absorb_entry in H.
  destruct (entry_of r) as [e'|x] eqn:He; simpl in H.
  - inversion H; subst. eapply entry_of_error; eauto.
  - eapply IH; eauto.
Qed.

Lemma enrich_error m l e : enrich m l = inl e -> exists cls, e = PyError cls.
Proof.
  unfold enrich, py_getitem, hash_key.
  destruct l as [| | | | |d]; simpl; try (intros H; inversion H; eauto).
  revert H. destruct (dict_get String.eqb d "user_id") as [v|]; simpl;
    [|intros H; inversion H; eauto].
  destruct (as_key v); simpl; [|intros H; inversion H; eauto].
  destruct (dict_del _ _ _); intros H; inversion H; eauto.
Qed.

Lemma get_except_internal e :
  e = JSONDecodeError \/ (exists cls, e = PyError cls) ->
  get_except e = inr internal_error.
Proof. intros [->|[cls ->]]; reflexivity. Qed.

(** X1. getListings always answers, and its answer is one of two
    shapes: status 200 with result true and a listings array, or an
    error envelope with result false and one message. *)
Theorem getListings_answer_shape options fetch sched q :
  exists r,
    snd (getListings options fetch sched q) = Some r
    /\ ((status r = 200 /\ exists out, payload r = success_payload (JArr out))
        \/ exists s, payload r = error_envelope s).
Proof.
  rewrite getListings_run, PublicListingsHandler_get_run.
  assert (Hex : forall (t : Trace) e,
            exists r, served (snd (t, outcome_of (get_except e))) = Some r
              /\ ((status r = 200 /\ exists out, payload r = success_payload (JArr out))
                  \/ exists s, payload r = error_envelope s)).
  { intros t e. destruct (served_except_envelope e) as (r & s & Hr & Hs).
    exists r. split; [exact Hr|]. right. eauto. }
  assert (Hg : forall (t : Trace) (c : Result Response),
            (forall r, c = inr r ->
               status r = 200 /\ exists out, payload r = success_payload (JArr out)) ->
            exists r, served (snd (t, guarded c)) = Some r
              /\ ((status r = 200 /\ exists out, payload r = success_payload (JArr out))
                  \/ exists s, payload r = error_envelope s)).
  { intros t [e|r] Hc; [apply (Hex t)|].
    exists r. split; [reflexivity|]. left. auto. }
  destruct (fetch (listings_request options q)) as [e|resp]; [apply Hex|].
  destruct (data <- json_loads (body resp) ;; py_get data "listings" (JArr []))
    as [e|listings]; [apply Hex|].
  destruct (truthy listings).
  - destruct (items <- py_iter listings ;; ids <- mapM user_id_of items ;; ret (items, ids))
      as [e|[items ids]]; [apply Hex|].
    apply Hg. intros r Hr.
    destruct (foldM absorb _ []) as [e|m]; [discriminate|].
    cbn [bind Monad_Result] in Hr.
    destruct (mapM (enrich m) items) as [e|en]; [discriminate|].
    inversion Hr; subst. simpl. eauto.
  - apply Hg. intros r Hr. inversion Hr; subst. simpl. eauto.
Qed.

(** X2. Whatever the backends answer, the calls of getListings are
    one GET of /listings on the listing service, first, and then only
    GETs of /users/<id> on the user service, without a form, for ids
    no two of which are equal in Python. Two of these lookups that
    are for integer ids are different requests. (Ids that Python
    tells apart but prints alike, 7 and "7", are fetched by the same
    request.) *)
Theorem getListings_calls options fetch sched q :
  exists uids,
    fst (getListings options fetch sched q)
    = {| method := GET;
         url := "http://localhost:" ++ py_str (KInt (listing_service_port options))
                ++ "/listings";
         query := query_params q; form := None |}
      :: map (fun uid =>
                {| method := GET;
                   url := ("http://localhost:"
                           ++ py_str (KInt (user_service_port options)) ++ "/users/")
                          ++ py_str uid;
                   query := []; form := None |}) uids
    /\ distinct uids = true
    /\ (forall i j n m,
          i <> j ->
          nth_error uids i = Some (KInt n) -> nth_error uids j = Some (KInt m) ->
          {| method := GET;
             url := ("http://localhost:"
                     ++ py_str (KInt (user_service_port options)) ++ "/users/")
                    ++ py_str (KInt n);
             query := []; form := None |}
          <> {| method := GET;
                url := ("http://localhost:"
                        ++ py_str (KInt (user_service_port options)) ++ "/users/")
                       ++ py_str (KInt m);
                query := []; form := None |}).
Proof.
  assert (Hgen : exists uids,
            fst (getListings options fetch sched q)
            = listings_request options q :: map (user_request options) uids
            /\ distinct uids = true).
  { rewrite getListings_run, PublicListingsHandler_get_run.
    assert (H0 : forall (o : Outcome Response),
              exists uids,
                fst ([listings_request options q], o)
                = listings_request options q :: map (user_request options) uids
                /\ distinct uids = true)
      by (intros o; exists []; split; reflexivity).
    destruct (fetch (listings_request options q)) as [e|resp]; [apply H0|].
    destruct (data <- json_loads (body resp) ;; py_get data "listings" (JArr []))
      as [e|listings]; [apply H0|].
    destruct (truthy listings); [|apply H0].
    destruct (items <- py_iter listings ;; ids <- mapM user_id_of items ;; ret (items, ids))
      as [e|[items ids]]; [apply H0|].
    exists (set_order sched (set_of ids)). split; [reflexivity|].
    rewrite (distinct_Permutation _ _ (set_order_perm sched (set_of ids))).
    apply set_of_spec. }
  destruct Hgen as (uids & Htrace & Hd).
  exists uids. split; [exact Htrace|]. split; [exact Hd|].
  apply int_lookups_apart. exact Hd.
Qed.

(** X3. A listings answer without a [listings] key, or with one that
    is false (null, an empty object, zero, an empty string), is taken
    for an empty page: 200 with an empty listings array and no user
    lookup. *)
Theorem getListings_missing_listings options fetch sched q resp d :
  fetch (listings_request options q) = inr resp ->
  loads (body resp) = Loads (JObj d) ->
  match dict_get String.eqb d "listings" with
  | Some v => truthy v = false
  | None => True
  end ->
  getListings options fetch sched q
  = ([listings_request options q], Some (success [])).
Proof.
  intros Hf Hl Hd.
  rewrite getListings_run, PublicListingsHandler_get_run, Hf.
  unfold json_loads. rewrite Hl. cbn [bind ret Monad_Result py_get].
  destruct (dict_get String.eqb d "listings") as [v|].
  - rewrite Hd. reflexivity.
  - reflexivity.
Qed.

Lemma getListings_missing_listings_witness :
  getListings default_options
    (fun _ => Worlds.ok (Worlds.json_body "result" (JObj [("result", JBool true)])))
    Worlds.sched_fifo Worlds.no_arguments
  = ([listings_request default_options Worlds.no_arguments], Some (success [])).
Proof.
  apply (getListings_missing_listings default_options _ Worlds.sched_fifo
           Worlds.no_arguments
           {| code := 200;
              body := Worlds.json_body "result" (JObj [("result", JBool true)]) |}
           [("result", JBool true)]);
    [reflexivity | reflexivity | exact I].
Defined.

(** X4. One listing of the page that is not an object with a hashable
    [user_id] fails the whole request: the answer is 500 with the
    message of an internal error, and no user lookup is issued, not
    even for the well-formed listings. *)
Theorem getListings_malformed_listing options fetch sched q items :
  page_returned options fetch q items ->
  Exists (fun l => forall uid, ~ owner_is l uid) items ->
  getListings options fetch sched q
  = ([listings_request options q], Some internal_error).
Proof.
  intros (resp & d & Hf & Hl & Hd) Hbad.
  assert (Hm : exists cls, mapM user_id_of items = inl (PyError cls)).
  { destruct (mapM_fails user_id_of items) as [e He].
    - eapply Exists_impl; [|exact Hbad]. intros l Hl0.
      destruct (user_id_of l) as [e|uid] eqn:Hu; eauto.
      apply user_id_of_owner in Hu. destruct (Hl0 uid Hu).
    - destruct (mapM_error _ _ _ He) as (a & _ & Ha).
      destruct (user_id_of_error _ _ Ha) as [cls ->]. eauto. }
  destruct Hm as [cls Hm].
  rewrite getListings_run, PublicListingsHandler_get_run, Hf.
  unfold json_loads. rewrite Hl. cbn [bind ret Monad_Result py_get]. rewrite Hd.
  destruct items as [|l items']; [inversion Hbad|].
  cbn [truthy py_iter bind ret Monad_Result]. rewrite Hm. reflexivity.
Qed.

Lemma getListings_malformed_listing_witness :
  getListings default_options
    (fun _ => Worlds.ok (Worlds.listings_body
                           [Worlds.listing_of 1 7 "flat"; JObj [("id", JInt 2)]]))
    Worlds.sched_fifo Worlds.no_arguments
  = ([listings_request default_options Worlds.no_arguments], Some internal_error).
Proof.
  apply (getListings_malformed_listing default_options _ Worlds.sched_fifo
           Worlds.no_arguments
           [Worlds.listing_of 1 7 "flat"; JObj [("id", JInt 2)]]).
  - eexists. eexists. repeat split.
  - apply Exists_cons_tl, Exists_cons_hd.
    intros uid (d & v & Hd & Hv & _). injection Hd as <-. discriminate Hv.
Defined.

(** X5. A listings answer that is not JSON, or that is JSON but not an
    object, fails the request with 500 and the message of an internal
    error; no user lookup is issued. *)
Theorem getListings_unusable_page_body options fetch sched q resp :
  fetch (listings_request options q) = inr resp ->
  match loads (body resp) with
  | Loads (JObj _) => False
  | _ => True
  end ->
  getListings options fetch sched q
  = ([listings_request options q], Some internal_error).
Proof.
  intros Hf Hl.
  rewrite getListings_run, PublicListingsHandler_get_run, Hf.
  unfold json_loads.
  destruct (loads (body resp)) as [[| | | | |d]| |]; try reflexivity.
  destruct Hl.
Qed.

Lemma getListings_unusable_page_body_witness :
  getListings default_options (fun _ => Worlds.ok (Worlds.plain_body "<html>"))
    Worlds.sched_fifo Worlds.no_arguments
  = ([listings_request default_options Worlds.no_arguments], Some internal_error).
Proof.
  apply (getListings_unusable_page_body default_options _ Worlds.sched_fifo
           Worlds.no_arguments
           {| code := 200; body := Worlds.plain_body "<html>" |});
    [reflexivity | exact I].
Defined.

Lemma foldM_absorb_fails rs :
  Exists (fun r => exists e, entry_of r = inl e) rs ->
  forall m, exists e, foldM absorb rs m = inl e.
Proof.
  induction 1 as [r rs [e He]|r rs _ IH]; intros m; simpl; rewrite absorb_entry.
  - rewrite He. simpl. eauto.
  - destruct (entry_of r); simpl; eauto.
Qed.

Lemma entry_of_some res k u :
  entry_of res = inr (Some (k, u)) ->
  exists resp d v,
    res = inr resp /\ loads (body resp) = Loads (JObj d)
    /\ dict_get String.eqb d "user" = Some u
    /\ field u "id" = Some v /\ as_key v = Some k.
Proof.
  unfold entry_of, json_loads, py_get, py_getitem, hash_key.
  destruct res as [e|resp]; [discriminate|].
  destruct (loads (body resp)) as [[| | | | |d]| |] eqn:Hl; simpl; try discriminate.
  destruct (dict_get String.eqb d "user") as [u0|] eqn:Hu; [|discriminate].
  destruct (truthy u0); simpl; [|discriminate].
  destruct u0 as [| | | | |fields]; simpl; try discriminate.
  destruct (dict_get String.eqb fields "id") as [v|] eqn:Hv; simpl; [|discriminate].
  destruct (as_key v) as [k0|] eqn:Hk; simpl; [|discriminate].
  intros H; inversion H; subst. exists resp, d, v. simpl. repeat split; auto.
Qed.

Lemma Forall2_nth_error {A B} (R : A -> B -> Prop) l l' :
  Forall2 R l l' ->
  forall i a b, nth_error l i = Some a -> nth_error l' i = Some b -> R a b.
Proof.
  induction 1 as [|x y l l' Hxy _ IH]; intros [|i] a b Ha Hb; simpl in *;
    try discriminate.
  - inversion Ha; inversion Hb; subst. exact Hxy.
  - eapply IH; eauto.
Qed.

Lemma Forall2_In_r_inv {A B} (R : A -> B -> Prop) l l' b :
  Forall2 R l l' -> In b l' -> exists a, In a l /\ R a b.
Proof.
  induction 1 as [|x y l l' Hxy _ IH]; simpl; [intros []|].
  intros [<-|Hin]; eauto. destruct (IH Hin) as (a & Ha & HR). eauto.
Qed.

(** What stands behind a successful answer: the lookups issued, what
    each brought to the map, and the loop over the listings. *)
Lemma getListings_success_inv options fetch sched q items out :
  page_returned options fetch q items ->
  snd (getListings options fetch sched q) = Some (success out) ->
  exists uids es,
    fst (getListings options fetch sched q)
    = listings_request options q :: map (user_request options) uids
    /\ Forall2 (fun r e => entry_of r = inr e)
         (map fetch (map (user_request options) uids)) es
    /\ Forall2 (fun l e => enrich (fold_left add_entry es []) l = inr e) items out.
Proof.
  intros Hpage Hout.
  destruct items as [|l0 items'].
  - rewrite getListings_empty in * by exact Hpage.
    inversion Hout; subst. exists [], []. repeat split; constructor.
  - destruct Hpage as (resp & d & Hf & Hl & Hd).
    rewrite getListings_run, PublicListingsHandler_get_run, Hf in *.
    unfold json_loads in *. rewrite Hl in *.
    cbn [bind ret Monad_Result py_get] in *. rewrite Hd in *.
    cbn [truthy py_iter bind ret Monad_Result] in *.
    destruct (mapM user_id_of (l0 :: items')) as [e|ids].
    { cbn [snd] in Hout. apply served_except in Hout as [s Hs].
      simpl in Hs. destruct (error_not_success _ _ (eq_sym Hs)). }
    cbn [fst snd] in *. apply served_guarded in Hout as [Hc|[s Hs]].
    2:{ simpl in Hs. destruct (error_not_success _ _ (eq_sym Hs)). }
    destruct (foldM absorb _ []) as [e|m] eqn:Hfold; [discriminate|].
    cbn [bind Monad_Result] in Hc.
    destruct (mapM (enrich m) (l0 :: items')) as [e|outs] eqn:Hm; [discriminate|].
    assert (outs = out) by (unfold write_json in Hc; simpl in Hc; inversion Hc; auto).
    subst outs.
    apply foldM_absorb_inv in Hfold as (es & Hes & ->).
    apply mapM_Forall2 in Hm.
    exists (set_order sched (set_of ids)), es. auto.
Qed.

(** X6. A user lookup that was issued and answered 2xx with a body that
    is not JSON, or not a JSON object, is not absorbed as a failed
    lookup is: the whole request is answered 500 with the message of an
    internal error. *)
Theorem getListings_unusable_lookup_body options fetch sched q items ids uid resp :
  page_returned options fetch q items ->
  Forall2 owner_is items ids ->
  In (user_request options uid) (fst (getListings options fetch sched q)) ->
  fetch (user_request options uid) = inr resp ->
  match loads (body resp) with
  | Loads (JObj _) => False
  | _ => True
  end ->
  snd (getListings options fetch sched q) = Some internal_error.
Proof.
  intros Hpage Hown Hin Hf Hl.
  destruct items as [|l0 items'].
  { rewrite getListings_empty in Hin by exact Hpage.
    destruct Hin as [H|[]]. destruct (listings_request_not_lookup _ _ _ H). }
  rewrite (getListings_fanout options fetch sched q _ ids Hpage) in *
    by (auto; discriminate).
  cbn [fst snd] in *.
  destruct Hin as [H|Hin]; [destruct (listings_request_not_lookup _ _ _ H)|].
  assert (Hraise : exists e, entry_of (inr resp) = inl e).
  { unfold entry_of, json_loads.
    destruct (loads (body resp)) as [[| | | | |d]| |]; simpl; eauto.
    destruct Hl. }
  destruct (foldM_absorb_fails
              (map fetch (map (user_request options) (set_order sched (set_of ids)))))
    with (m := @nil (key * json)) as [e He].
  { apply Exists_exists. exists (fetch (user_request options uid)).
    split; [apply in_map, Hin|]. rewrite Hf. exact Hraise. }
  rewrite He. cbn [bind Monad_Result guarded].
  rewrite (get_except_internal e (foldM_absorb_error _ _ _ He)). reflexivity.
Qed.

Lemma getListings_unusable_lookup_body_witness :
  snd (getListings default_options Worlds.fetch_array Worlds.sched_fifo
         Worlds.no_arguments)
  = Some internal_error.
Proof.
  apply (getListings_unusable_lookup_body default_options Worlds.fetch_array
           Worlds.sched_fifo Worlds.no_arguments
           [Worlds.listing_of 1 7 "flat"] [KInt 7] (KInt 7)
           {| code := 200; body := Worlds.json_body "[]" (JArr []) |}).
  - eexists. eexists. repeat split.
  - repeat constructor.
    exists [("id", JInt 1); ("user_id", JInt 7); ("title", JStr "flat")], (JInt 7).
    repeat split.
  - right. left. reflexivity.
  - reflexivity.
  - exact I.
Defined.

(** X7. In a successful answer two listings whose user ids are equal
    (in Python's sense) carry the same user: the record found for the
    id is attached to every listing that has it. *)
Theorem getListings_same_owner_same_user options fetch sched q items out
    i j l1 l2 e1 e2 k1 k2 :
  page_returned options fetch q items ->
  snd (getListings options fetch sched q) = Some (success out) ->
  nth_error items i = Some l1 -> nth_error out i = Some e1 ->
  nth_error items j = Some l2 -> nth_error out j = Some e2 ->
  owner_is l1 k1 -> owner_is l2 k2 ->
  py_eqb k1 k2 = true ->
  field e1 "user" = field e2 "user".
Proof.
  intros Hpage Hout Hl1 He1 Hl2 He2 Hk1 Hk2 Heq.
  destruct (getListings_success_inv _ _ _ _ _ _ Hpage Hout) as (uids & es & _ & _ & Hen).
  pose proof (Forall2_nth_error _ _ _ Hen i l1 e1 Hl1 He1) as H1.
  pose proof (Forall2_nth_error _ _ _ Hen j l2 e2 Hl2 He2) as H2.
  destruct (enrich_owner (fold_left add_entry es []) l1 k1 Hk1) as (x1 & Hx1 & F1).
  destruct (enrich_owner (fold_left add_entry es []) l2 k2 Hk2) as (x2 & Hx2 & F2).
  assert (x1 = e1) by congruence. assert (x2 = e2) by congruence. subst x1 x2.
  destruct F1 as (d1 & d1' & _ & -> & Hu1 & _).
  destruct F2 as (d2 & d2' & _ & -> & Hu2 & _).
  simpl. rewrite Hu1, Hu2.
  rewrite (users_map_get_cong _ k1 k2 Heq). reflexivity.
Qed.

Lemma getListings_same_owner_same_user_witness :
  field (JObj [("id", JInt 1); ("title", JStr "flat");
               ("user", Worlds.user_of 7 "Ann")]) "user"
  = field (JObj [("id", JInt 3); ("title", JStr "room");
                 ("user", Worlds.user_of 7 "Ann")]) "user".
Proof.
  apply (getListings_same_owner_same_user default_options Worlds.fetch_7_9_7
           Worlds.sched_lifo Worlds.no_arguments Worlds.page_7_9_7
           [ JObj [("id", JInt 1); ("title", JStr "flat");
                   ("user", Worlds.user_of 7 "Ann")];
             JObj [("id", JInt 2); ("title", JStr "house"); ("user", JNull)];
             JObj [("id", JInt 3); ("title", JStr "room");
                   ("user", Worlds.user_of 7 "Ann")] ]
           0%nat 2%nat (Worlds.listing_of 1 7 "flat") (Worlds.listing_of 3 7 "room")
           _ _ (KInt 7) (KInt 7) page_7_9_7_returned);
    try reflexivity.
  - exists [("id", JInt 1); ("user_id", JInt 7); ("title", JStr "flat")], (JInt 7).
    repeat split.
  - exists [("id", JInt 3); ("user_id", JInt 7); ("title", JStr "room")], (JInt 7).
    repeat split.
Defined.

(** X8. The gateway makes no user up: in a successful answer the user
    of a listing is null, or it is the [user] object of the 2xx answer
    of a lookup that was issued, and the id inside that object equals
    the listing's user id. *)
Theorem getListings_users_come_from_answers options fetch sched q items out :
  page_returned options fetch q items ->
  snd (getListings options fetch sched q) = Some (success out) ->
  Forall2
    (fun l e =>
       field e "user" = Some JNull
       \/ exists uid resp d u v k k',
            In (user_request options uid) (fst (getListings options fetch sched q))
            /\ fetch (user_request options uid) = inr resp
            /\ loads (body resp) = Loads (JObj d)
            /\ dict_get String.eqb d "user" = Some u
            /\ field e "user" = Some u
            /\ field u "id" = Some v /\ as_key v = Some k
            /\ owner_is l k' /\ py_eqb k k' = true)
    items out.
Proof.
  intros Hpage Hout.
  destruct (getListings_success_inv _ _ _ _ _ _ Hpage Hout)
    as (uids & es & Htrace & Hes & Hen).
  eapply Forall2_impl; [|exact Hen].
  intros l e Hle.
  destruct (enrich_inv _ _ _ Hle) as [k' Hk'].
  destruct (enrich_owner (fold_left add_entry es []) l k' Hk') as (x & Hx & F).
  assert (x = e) by congruence. subst x.
  destruct F as (d0 & d1 & _ & -> & Hu & _). simpl.
  destruct (dict_get py_eqb (fold_left add_entry es []) k') as [u|] eqn:Hget; auto.
  right.
  apply fold_add_entry_get in Hget as [Hget|(k & Hin & Hk)]; [discriminate|].
  destruct (Forall2_In_r_inv _ _ _ _ Hes Hin) as (res & Hres & Hentry).
  apply in_map_iff in Hres as (req & <- & Hreq).
  apply in_map_iff in Hreq as (uid & <- & Huid).
  destruct (entry_of_some _ _ _ Hentry) as (resp & d & v & Hf & Hl & Hd & Hv & Hkv).
  exists uid, resp, d, u, v, k, k'. rewrite Htrace.
  repeat split; auto. right. apply in_map, Huid.
Qed.

Lemma getListings_users_come_from_answers_witness :
  Forall2
    (fun l e =>
       field e "user" = Some JNull
       \/ exists uid resp d u v k k',
            In (user_request default_options uid)
              (fst (getListings default_options Worlds.fetch_crossed
                      Worlds.sched_fifo Worlds.no_arguments))
            /\ Worlds.fetch_crossed (user_request default_options uid) = inr resp
            /\ loads (body resp) = Loads (JObj d)
            /\ dict_get String.eqb d "user" = Some u
            /\ field e "user" = Some u
            /\ field u "id" = Some v /\ as_key v = Some k
            /\ owner_is l k' /\ py_eqb k k' = true)
    [Worlds.listing_of 1 7 "flat"; Worlds.listing_of 2 9 "house"]
    [ JObj [("id", JInt 1); ("title", JStr "flat"); ("user", Worlds.user_of 7 "Ann")];
      JObj [("id", JInt 2); ("title", JStr "house"); ("user", JNull)] ].
Proof.
  apply (getListings_users_come_from_answers default_options Worlds.fetch_crossed
           Worlds.sched_fifo Worlds.no_arguments).
  - apply page_7_9_returned. reflexivity.
  - reflexivity.
Defined.

(* ================================================================== *)
(** ** The create handlers *)
(* ================================================================== *)

Ltac run_post :=
  unfold createListing, createUser, execute, PublicListingsHandler_post,
    PublicUsersHandler_post, try_except, await, lift, http_client_fetch,
    json_loads;
  cbn [bind ret Monad_M Monad_Result].

(** X9. A primary call that fails with an [HTTPClientError] whose code
    is not a member of [http.HTTPStatus] (the client's own 599 for a
    timeout, or a non-standard status of the backend) is answered 500
    with the phrase of 500, by the listings fetch and by both creates:
    [write_error] raises inside the [except] clause. *)
Theorem primary_unknown_code_answers_500 options fetch sched p r c message response :
  primary_request options p = Some r ->
  fetch r = inl (HTTPClientError c message response) ->
  HTTPStatus_phrase c = None ->
  gateway options fetch sched p
  = ([r], Some {| status := 500; payload := error_envelope "Internal Server Error" |}).
Proof.
  intros Hp Hf Hc. destruct p as [q|b|b]; simpl in Hp.
  - inversion Hp; subst r. simpl.
    rewrite (getListings_primary_error _ _ _ _ _ _ _ Hf).
    unfold write_error. rewrite Hc. reflexivity.
  - destruct (loads b) as [parsed| |] eqn:Hl; try discriminate.
    destruct (urlencode parsed) as [e|post_data] eqn:Hu; try discriminate.
    inversion Hp; subst r. simpl. run_post.
    rewrite Hl. cbn [bind ret Monad_M Monad_Result]. rewrite Hu.
    cbn [app]. rewrite Hf. cbn -[write_error].
    unfold write_error. rewrite Hc. reflexivity.
  - destruct (loads b) as [[| | | | |d]| |] eqn:Hl; try discriminate.
    destruct (dict_get String.eqb d "name") as [name|] eqn:Hn; try discriminate.
    destruct (truthy name) eqn:Ht; try discriminate.
    inversion Hp; subst r. simpl. run_post.
    rewrite Hl. cbn [bind ret Monad_M Monad_Result py_get]. rewrite Hn, Ht.
    cbn [negb urlencode ret Monad_Result app]. rewrite Hf. cbn -[write_error].
    unfold write_error. rewrite Hc. reflexivity.
Qed.

Lemma primary_unknown_code_answers_500_witness :
  gateway default_options Worlds.fetch_timeout Worlds.sched_fifo
    (CreateListing (Worlds.json_body "{}" (JObj [("title", JStr "flat")])))
  = ([create_listing_request default_options [("title", JStr "flat")]],
     Some {| status := 500; payload := error_envelope "Internal Server Error" |}).
Proof.
  apply (primary_unknown_code_answers_500 default_options Worlds.fetch_timeout
           Worlds.sched_fifo
           (CreateListing (Worlds.json_body "{}" (JObj [("title", JStr "flat")])))
           _ 599 "Timeout while connecting" None);
    reflexivity.
Defined.

(** X10. createListing forwards every field of the client's JSON object
    as the form of one POST to the listing service and relays the
    backend's answer as it is: its status and its decoded body. *)
Theorem createListing_relays options fetch request_body d resp j :
  loads request_body = Loads (JObj d) ->
  fetch (create_listing_request options d) = inr resp ->
  loads (body resp) = Loads j ->
  no_body_status (code resp) = false ->
  createListing options fetch request_body
  = ([ {| method := POST; url := get_service_url options listing "/listings";
          query := []; form := Some d |} ],
     Some {| status := code resp; payload := j |}).
Proof.
  intros Hl Hf Hj Hn. run_post. rewrite Hl.
  cbn [bind ret Monad_M Monad_Result urlencode app].
  rewrite Hf.
  cbn [bind ret Monad_M Monad_Result]. rewrite Hj.
  unfold write_json. rewrite Hn. reflexivity.
Qed.

Lemma createListing_relays_witness :
  createListing default_options
    (fun _ => inr {| code := 201;
                     body := Worlds.json_body "listing"
                               (JObj [("result", JBool true);
                                      ("listing", Worlds.listing_of 1 7 "flat")]) |})
    (Worlds.json_body "{}" (JObj [("user_id", JInt 7); ("title", JStr "flat")]))
  = ([ {| method := POST; url := get_service_url default_options listing "/listings";
          query := [];
          form := Some [("user_id", JInt 7); ("title", JStr "flat")] |} ],
     Some {| status := 201;
             payload := JObj [("result", JBool true);
                              ("listing", Worlds.listing_of 1 7 "flat")] |}).
Proof.
  apply (createListing_relays default_options _ _
           [("user_id", JInt 7); ("title", JStr "flat")]
           {| code := 201;
              body := Worlds.json_body "listing"
                        (JObj [("result", JBool true);
                               ("listing", Worlds.listing_of 1 7 "flat")]) |});
    reflexivity.
Defined.

(** X11. createUser forwards the name and nothing else of the client's
    object: the form of its one POST to the user service has the single
    field [name]; the backend's status and decoded body are relayed as
    they are. *)
Theorem createUser_forwards_name_only options fetch request_body d name resp j :
  loads request_body = Loads (JObj d) ->
  dict_get String.eqb d "name" = Some name ->
  truthy name = true ->
  fetch (create_user_request options [("name", name)]) = inr resp ->
  loads (body resp) = Loads j ->
  no_body_status (code resp) = false ->
  createUser options fetch request_body
  = ([ {| method := POST; url := get_service_url options user "/users";
          query := []; form := Some [("name", name)] |} ],
     Some {| status := code resp; payload := j |}).
Proof.
  intros Hl Hname Ht Hf Hj Hn. run_post. rewrite Hl.
  cbn [bind ret Monad_M Monad_Result py_get]. rewrite Hname, Ht.
  cbn [negb urlencode bind ret Monad_M Monad_Result app].
  rewrite Hf.
  cbn [bind ret Monad_M Monad_Result]. rewrite Hj.
  unfold write_json. rewrite Hn. reflexivity.
Qed.

Lemma createUser_forwards_name_only_witness :
  createUser default_options
    (fun _ => inr {| code := 201;
                     body := Worlds.user_body (Worlds.user_of 1 "Ann") |})
    (Worlds.json_body "{}" (JObj [("name", JStr "Ann"); ("admin", JBool true)]))
  = ([ {| method := POST; url := get_service_url default_options user "/users";
          query := []; form := Some [("name", JStr "Ann")] |} ],
     Some {| status := 201;
             payload := JObj [("result", JBool true);
                              ("user", Worlds.user_of 1 "Ann")] |}).
Proof.
  apply (createUser_forwards_name_only default_options _ _
           [("name", JStr "Ann"); ("admin", JBool true)] (JStr "Ann")
           {| code := 201; body := Worlds.user_body (Worlds.user_of 1 "Ann") |});
    reflexivity.
Defined.

(** X12. A create whose request body is not JSON is refused without
    a backend call, by createListing and by createUser alike: with 400
    "Invalid JSON format." when the body is text that does not parse,
    with 500 "An internal server error occurred." when its bytes are
    not UTF-8, which [json.loads] reports by a [UnicodeDecodeError]
    that only the last [except] clause catches. *)
Theorem create_body_not_json options fetch request_body :
  (forall j, loads request_body <> Loads j) ->
  createListing options fetch request_body
  = ([], Some match loads request_body with
              | LoadsUnicodeDecodeError => internal_error
              | _ => {| status := 400;
                        payload := error_envelope "Invalid JSON format." |}
              end)
  /\ createUser options fetch request_body
     = ([], Some match loads request_body with
                 | LoadsUnicodeDecodeError => internal_error
                 | _ => {| status := 400;
                           payload := error_envelope "Invalid JSON format." |}
                 end).
Proof.
  intros Hl. split; run_post;
    (destruct (loads request_body) as [j| |]; [destruct (Hl j eq_refl)| |]);
    reflexivity.
Qed.

Lemma create_body_not_json_witness :
  (createListing default_options Worlds.fetch_refused (Worlds.plain_body "name=Ann")
   = ([], Some {| status := 400; payload := error_envelope "Invalid JSON format." |})
   /\ createUser default_options Worlds.fetch_refused (Worlds.plain_body "name=Ann")
      = ([], Some {| status := 400; payload := error_envelope "Invalid JSON format." |}))
  /\ (createListing default_options Worlds.fetch_refused Worlds.binary_body
      = ([], Some {| status := 500;
                     payload := error_envelope "An internal server error occurred." |})
      /\ createUser default_options Worlds.fetch_refused Worlds.binary_body
         = ([], Some {| status := 500;
                        payload := error_envelope "An internal server error occurred." |})).
Proof.
  split.
  - apply (create_body_not_json default_options Worlds.fetch_refused
             (Worlds.plain_body "name=Ann")).
    intros j; discriminate.
  - apply (create_body_not_json default_options Worlds.fetch_refused
             Worlds.binary_body).
    intros j; discriminate.
Defined.

(** X13. When the backend of a create answers 2xx with a body that is
    not JSON, the call was made and the client is told of an error.
    Text that does not parse gives 400 "Invalid JSON format.", as if
    the client's own request had been malformed: the same [except]
    clause catches the decoding of the backend's body. Bytes that are
    not UTF-8 give 500 "An internal server error occurred.". *)
Theorem create_backend_body_not_json options fetch sched p r resp :
  match p with ListingsFetch _ => False | _ => True end ->
  primary_request options p = Some r ->
  fetch r = inr resp ->
  (forall j, loads (body resp) <> Loads j) ->
  gateway options fetch sched p
  = ([r], Some match loads (body resp) with
               | LoadsUnicodeDecodeError => internal_error
               | _ => {| status := 400;
                         payload := error_envelope "Invalid JSON format." |}
               end).
Proof.
  intros Hcreate Hp Hf Hj. destruct p as [q|b|b]; simpl in Hp; [destruct Hcreate| |].
  - destruct (loads b) as [parsed| |] eqn:Hl; try discriminate.
    destruct (urlencode parsed) as [e|post_data] eqn:Hu; try discriminate.
    inversion Hp; subst r. simpl. run_post.
    rewrite Hl. cbn [bind ret Monad_M Monad_Result]. rewrite Hu.
    cbn [app]. rewrite Hf. cbn [bind ret Monad_M Monad_Result].
    destruct (loads (body resp)) as [j| |]; [destruct (Hj j eq_refl)| |]; reflexivity.
  - destruct (loads b) as [[| | | | |d]| |] eqn:Hl; try discriminate.
    destruct (dict_get String.eqb d "name") as [name|] eqn:Hn; try discriminate.
    destruct (truthy name) eqn:Ht; try discriminate.
    inversion Hp; subst r. simpl. run_post.
    rewrite Hl. cbn [bind ret Monad_M Monad_Result py_get]. rewrite Hn, Ht.
    cbn [negb urlencode ret Monad_Result app]. rewrite Hf.
    cbn [bind ret Monad_M Monad_Result].
    destruct (loads (body resp)) as [j| |]; [destruct (Hj j eq_refl)| |]; reflexivity.
Qed.

Lemma create_backend_body_not_json_witness :
  gateway default_options
    (fun _ => Worlds.ok (Worlds.plain_body "created")) Worlds.sched_fifo
    (CreateUser (Worlds.json_body "{}" (JObj [("name", JStr "Ann")])))
  = ([create_user_request default_options [("name", JStr "Ann")]],
     Some {| status := 400; payload := error_envelope "Invalid JSON format." |})
  /\ gateway default_options
       (fun _ => Worlds.ok Worlds.binary_body) Worlds.sched_fifo
       (CreateListing (Worlds.json_body "{}" (JObj [("title", JStr "Flat")])))
     = ([create_listing_request default_options [("title", JStr "Flat")]],
        Some {| status := 500;
                payload := error_envelope "An internal server error occurred." |}).
Proof.
  split.
  - apply (create_backend_body_not_json default_options _ Worlds.sched_fifo
             (CreateUser (Worlds.json_body "{}" (JObj [("name", JStr "Ann")])))
             _ {| code := 200; body := Worlds.plain_body "created" |});
      [exact I | reflexivity | reflexivity | intros j; discriminate].
  - apply (create_backend_body_not_json default_options _ Worlds.sched_fifo
             (CreateListing (Worlds.json_body "{}" (JObj [("title", JStr "Flat")])))
             _ {| code := 200; body := Worlds.binary_body |});
      [exact I | reflexivity | reflexivity | intros j; discriminate].
Defined.

(** X14. When the backend of a create rejects the call with a status
    that [http.HTTPStatus] knows and that may carry a body, the gateway
    answers with that status and a message that names the service and
    wraps the bytes of the backend's body. *)
Theorem create_upstream_status_is_passed_on options fetch request_body
    S message resp phrase :
  HTTPStatus_phrase S = Some phrase ->
  no_body_status S = false ->
  (forall d,
     loads request_body = Loads (JObj d) ->
     fetch (create_listing_request options d)
     = inl (HTTPClientError S message (Some resp)) ->
     createListing options fetch request_body
     = ([create_listing_request options d],
        Some {| status := S;
                payload := error_envelope
                             ("Listing service error: "
                              ++ bytes_repr (raw (body resp))) |}))
  /\ (forall d name,
        loads request_body = Loads (JObj d) ->
        dict_get String.eqb d "name" = Some name ->
        truthy name = true ->
        fetch (create_user_request options [("name", name)])
        = inl (HTTPClientError S message (Some resp)) ->
        createUser options fetch request_body
        = ([create_user_request options [("name", name)]],
           Some {| status := S;
                   payload := error_envelope
                                ("User service error: "
                                 ++ bytes_repr (raw (body resp))) |})).
Proof.
  intros Hp Hn. split.
  - intros d Hl Hf. run_post. rewrite Hl.
    cbn [bind ret Monad_M Monad_Result urlencode app]. rewrite Hf.
    cbn -[write_error bytes_repr append].
    unfold write_error, write_json. rewrite Hp, Hn. reflexivity.
  - intros d name Hl Hname Ht Hf. run_post. rewrite Hl.
    cbn [bind ret Monad_M Monad_Result py_get]. rewrite Hname, Ht.
    cbn [negb urlencode bind ret Monad_M Monad_Result app]. rewrite Hf.
    cbn -[write_error bytes_repr append].
    unfold write_error, write_json. rewrite Hp, Hn. reflexivity.
Qed.

Lemma create_upstream_status_is_passed_on_witness :
  createUser default_options
    (Worlds.fetch_status 400 "Bad Request" "name parameter is required.")
    (Worlds.json_body "{}" (JObj [("name", JStr " ")]))
  = ([create_user_request default_options [("name", JStr " ")]],
     Some {| status := 400;
             payload := error_envelope
                          ("User service error: "
                           ++ bytes_repr "name parameter is required.") |}).
Proof.
  destruct (create_upstream_status_is_passed_on default_options
              (Worlds.fetch_status 400 "Bad Request" "name parameter is required.")
              (Worlds.json_body "{}" (JObj [("name", JStr " ")]))
              400 "Bad Request"
              {| code := 400; body := Worlds.plain_body "name parameter is required." |}
              "Bad Request" eq_refl eq_refl) as [_ H].
  apply (H [("name", JStr " ")] (JStr " ")); reflexivity.
Defined.

(** X15. A create whose body is JSON but not usable is answered 500
    with the message of an internal error before any backend call:
    createUser for anything that is not an object, createListing for
    anything that is neither an object nor an empty array or string. *)
Theorem create_unusable_json_is_500 options fetch request_body j :
  loads request_body = Loads j ->
  (match j with JObj _ => False | _ => True end ->
   createUser options fetch request_body = ([], Some internal_error))
  /\ (match j with
      | JObj _ | JArr [] | JStr EmptyString => False
      | _ => True
      end ->
      createListing options fetch request_body = ([], Some internal_error)).
Proof.
  intros Hl. split; intros Hj; run_post; rewrite Hl;
    cbn [bind ret Monad_M Monad_Result].
  - destruct j as [| | | | |d]; try reflexivity. destruct Hj.
  - destruct j as [| | |[|c s]|[|x l]|d]; try reflexivity; destruct Hj.
Qed.

Lemma create_unusable_json_is_500_witness :
  createUser default_options Worlds.fetch_refused
    (Worlds.json_body "[1]" (JArr [JInt 1]))
  = ([], Some internal_error)
  /\ createListing default_options Worlds.fetch_refused
       (Worlds.json_body "[1]" (JArr [JInt 1]))
     = ([], Some internal_error).
Proof.
  destruct (create_unusable_json_is_500 default_options Worlds.fetch_refused
              (Worlds.json_body "[1]" (JArr [JInt 1])) (JArr [JInt 1]) eq_refl)
    as [H1 H2].
  split; [apply H1 | apply H2]; exact I.
Defined.

(* ================================================================== *)
(** ** More on the user service *)
(* ================================================================== *)

Lemma insert_user_ok db n t db' rowid :
  insert_user db n t t = inr (db', rowid) ->
  sqlite_int t = true /\ sqlite_int (last_rowid db + 1) = true
  /\ rowid = last_rowid db + 1
  /\ db' = {| users := (users db ++ [ {| id := last_rowid db + 1; name := n;
                                         created_at := t; updated_at := t |} ])%list;
              last_rowid := last_rowid db + 1 |}.
Proof.
  unfold insert_user, bind_int.
  destruct (sqlite_int t); simpl; [|discriminate].
  destruct (sqlite_int (last_rowid db + 1)); simpl; [|discriminate].
  intros H; inversion H; auto.
Qed.

(** The ids handed out so far are 1, 2, ... in table order. *)
Lemma ids_step db c :
  map id (users db) = map Z.of_nat (seq 1 (List.length (users db)))
  /\ last_rowid db = Z.of_nat (List.length (users db)) ->
  map id (users (fst (handle db c)))
  = map Z.of_nat (seq 1 (List.length (users (fst (handle db c)))))
  /\ last_rowid (fst (handle db c))
     = Z.of_nat (List.length (users (fst (handle db c)))).
Proof.
  intros [Hids Hlast]. destruct c as [pn ps|n t|uid]; simpl; auto.
  unfold UsersHandler_post. destruct n as [[|c n]|]; simpl; auto.
  destruct (insert_user db (String c n) t t) as [e|[db' rowid]] eqn:Hi; simpl; auto.
  apply insert_user_ok in Hi as (_ & _ & _ & ->). simpl.
  rewrite length_app, Nat.add_1_r, seq_S, !map_app, Hids, Hlast. simpl.
  split; [|lia]. do 2 f_equal. lia.
Qed.

Lemma ids_run calls : forall db,
  map id (users db) = map Z.of_nat (seq 1 (List.length (users db)))
  /\ last_rowid db = Z.of_nat (List.length (users db)) ->
  map id (users (run db calls))
  = map Z.of_nat (seq 1 (List.length (users (run db calls))))
  /\ last_rowid (run db calls) = Z.of_nat (List.length (users (run db calls))).
Proof.
  unfold run. induction calls as [|c calls IH]; intros db H; simpl; auto.
  apply IH, ids_step, H.
Qed.

Lemma id_in_range rows row :
  map id rows = map Z.of_nat (seq 1 (List.length rows)) ->
  In row rows -> 1 <= id row <= Z.of_nat (List.length rows).
Proof.
  intros Hids Hin. apply (in_map id) in Hin. rewrite Hids in Hin.
  apply in_map_iff in Hin as (k & <- & Hk). apply in_seq in Hk. lia.
Qed.

Lemma range_has_id rows uid :
  map id rows = map Z.of_nat (seq 1 (List.length rows)) ->
  1 <= uid <= Z.of_nat (List.length rows) ->
  exists row, In row rows /\ id row = uid.
Proof.
  intros Hids Hr.
  assert (Hin : In uid (map id rows)).
  { rewrite Hids. apply in_map_iff. exists (Z.to_nat uid). split; [lia|].
    apply in_seq. lia. }
  apply in_map_iff in Hin as (row & Hrow & Hin). eauto.
Qed.

Lemma find_app_none {A} (f : A -> bool) l l' :
  (forall x, In x l -> f x = false) -> find f (l ++ l') = find f l'.
Proof.
  induction l as [|a l IH]; simpl; intros H; auto.
  rewrite (H a) by auto. apply IH. auto.
Qed.

(** X16. On a new database the ids handed out are 1, 2, 3, ... in the
    order of creation, whatever requests are made in between: refused
    and failed requests use no id, and the next id is always one more
    than the number of users stored. *)
Theorem user_ids_are_sequential calls :
  map id (users (run init_db calls))
  = map Z.of_nat (seq 1 (List.length (users (run init_db calls))))
  /\ last_rowid (run init_db calls)
     = Z.of_nat (List.length (users (run init_db calls))).
Proof. apply ids_run. split; reflexivity. Qed.

(** X17. A user that [POST /users] answered 201 for is found by
    [GET /users/{id}] under the id of the answer, with the very fields
    of the answer. *)
Theorem created_user_is_found calls name_arg time_now db' r :
  UsersHandler_post (run init_db calls) name_arg time_now = (db', inr r) ->
  status r = 201 ->
  exists row,
    r = created_response row
    /\ UserHandler_get db' (Some (id row)) = inr (user_response row).
Proof.
  intros H Hs.
  destruct (ids_run calls init_db (conj eq_refl eq_refl)) as [Hids Hlast].
  set (db := run init_db calls) in *.
  unfold UsersHandler_post in H.
  destruct name_arg as [[|c n]|];
    try (injection H as Hdb Hr; subst; simpl in Hs; lia).
  destruct (insert_user db (String c n) time_now time_now) as [e|[db1 rowid]] eqn:Hi;
    try (injection H as Hdb Hr; subst; simpl in Hs; lia).
  apply insert_user_ok in Hi as (_ & Hrow & -> & ->).
  injection H as Hdb Hr. subst db' r.
  exists {| id := last_rowid db + 1; name := String c n;
            created_at := time_now; updated_at := time_now |}.
  split; [reflexivity|].
  unfold UserHandler_get, bind_int. simpl. rewrite Hrow. simpl.
  rewrite find_app_none.
  - simpl. rewrite Z.eqb_refl. reflexivity.
  - intros x Hx. apply Z.eqb_neq.
    pose proof (id_in_range _ _ Hids Hx). lia.
Qed.

Lemma created_user_is_found_witness :
  exists row,
    {| status := 201;
       payload := JObj [("result", JBool true);
                        ("user", row_json (Worlds.row_of 2 "Bob" 9))] |}
    = created_response row
    /\ UserHandler_get
         (run init_db [PostUsers (Some "Ann") 5; PostUsers (Some "Bob") 9])
         (Some (id row))
       = inr (user_response row).
Proof.
  apply (created_user_is_found [PostUsers (Some "Ann") 5] (Some "Bob") 9
           (run init_db [PostUsers (Some "Ann") 5; PostUsers (Some "Bob") 9]));
    reflexivity.
Defined.

(** X18. After any requests on a new database, [GET /users/{id}],
    whose route passes decimal digits only and so no negative id,
    answers 200 with the stored user of that id exactly for the ids 1
    to the number of users created, and 404 "User with id ... not
    found." for every other id that SQLite takes, 0 among them. *)
Theorem get_user_by_id calls uid :
  0 <= uid ->
  sqlite_int uid = true ->
  (1 <= uid <= Z.of_nat (List.length (users (run init_db calls))) ->
   exists row,
     In row (users (run init_db calls)) /\ id row = uid
     /\ UserHandler_get (run init_db calls) (Some uid) = inr (user_response row))
  /\ (~ (1 <= uid <= Z.of_nat (List.length (users (run init_db calls)))) ->
      UserHandler_get (run init_db calls) (Some uid)
      = inr {| status := 404;
               payload := error_envelope
                            ("User with id " ++ py_str (KInt uid) ++ " not found.") |}).
Proof.
  intros Hroute Hint.
  destruct (ids_run calls init_db (conj eq_refl eq_refl)) as [Hids _].
  set (db := run init_db calls) in *.
  unfold UserHandler_get, bind_int. rewrite Hint. cbn [bind ret Monad_Result].
  split.
  - intros Hr. destruct (range_has_id _ _ Hids Hr) as (row & Hin & Hid).
    destruct (find (fun r => id r =? uid) (users db)) as [row'|] eqn:Hfind.
    + apply find_some in Hfind as [Hin' Hid']. apply Z.eqb_eq in Hid'.
      exists row'. repeat split; auto.
    + pose proof (find_none _ _ Hfind row Hin) as Hno. simpl in Hno.
      apply Z.eqb_neq in Hno. congruence.
  - intros Hr.
    destruct (find (fun r => id r =? uid) (users db)) as [row'|] eqn:Hfind;
      [|reflexivity].
    apply find_some in Hfind as [Hin' Hid']. apply Z.eqb_eq in Hid'.
    pose proof (id_in_range _ _ Hids Hin'). destruct Hr. lia.
Qed.

Lemma get_user_by_id_witness :
  (exists row,
     In row (users (run init_db [PostUsers (Some "Ann") 5; PostUsers None 6;
                                 PostUsers (Some "Bob") 9]))
     /\ id row = 2
     /\ UserHandler_get
          (run init_db [PostUsers (Some "Ann") 5; PostUsers None 6;
                        PostUsers (Some "Bob") 9]) (Some 2)
        = inr (user_response row))
  /\ UserHandler_get
       (run init_db [PostUsers (Some "Ann") 5; PostUsers None 6;
                     PostUsers (Some "Bob") 9]) (Some 3)
     = inr {| status := 404;
              payload := error_envelope "User with id 3 not found." |}.
Proof.
  split.
  - apply (get_user_by_id [PostUsers (Some "Ann") 5; PostUsers None 6;
                           PostUsers (Some "Bob") 9] 2);
      [lia | reflexivity | simpl; lia].
  - apply (get_user_by_id [PostUsers (Some "Ann") 5; PostUsers None 6;
                           PostUsers (Some "Bob") 9] 3);
      [lia | reflexivity | simpl; lia].
Defined.

(** X19. [POST /users] either answers 201 and appends exactly one row,
    with the given name, the next id and the clock reading in both
    stamps, or it answers 400 or 500 with an error envelope and leaves
    the database as it was. *)
Theorem post_user_outcomes db name_arg time_now :
  (exists row,
     UsersHandler_post db name_arg time_now
     = ({| users := (users db ++ [row])%list; last_rowid := id row |},
        inr (created_response row))
     /\ name_arg = Some (name row)
     /\ id row = last_rowid db + 1
     /\ created_at row = time_now /\ updated_at row = time_now)
  \/ (exists s message,
        UsersHandler_post db name_arg time_now
        = (db, inr {| status := s; payload := error_envelope message |})
        /\ (s = 400 \/ s = 500)).
Proof.
  unfold UsersHandler_post, insert_user, bind_int.
  destruct name_arg as [[|c n]|];
    try (right; eexists; eexists; split; [reflexivity|auto]).
  destruct (sqlite_int time_now); simpl;
    try (right; eexists; eexists; split; [reflexivity|auto]).
  destruct (sqlite_int (last_rowid db + 1)); simpl;
    try (right; eexists; eexists; split; [reflexivity|auto]).
  left.
  exists {| id := last_rowid db + 1; name := String c n;
            created_at := time_now; updated_at := time_now |}.
  repeat split.
Qed.

Lemma firstn_plus {A} (a b : nat) : forall l : list A,
  firstn (a + b) l = (firstn a l ++ firstn b (skipn a l))%list.
Proof.
  induction a as [|a IH]; intros [|x l]; simpl; auto.
  - rewrite firstn_nil. reflexivity.
  - rewrite IH. reflexivity.
Qed.

Lemma sqlite_int_between x y :
  0 <= x <= y -> sqlite_int y = true -> sqlite_int x = true.
Proof.
  unfold sqlite_int. intros Hx Hy.
  apply andb_true_iff in Hy as [H1 H2].
  apply Z.leb_le in H1. apply Z.ltb_lt in H2.
  apply andb_true_iff. split; [apply Z.leb_le|apply Z.ltb_lt]; lia.
Qed.

(** X20. Consecutive pages of [GET /users] tile the list of users: for
    a positive page size, pages 1 to k put one after the other are the
    first k * page_size users of the table ordered newest first, so no
    user is skipped between two pages and none is shown twice. *)
Theorem user_pages_tile db ps k :
  0 < ps ->
  sqlite_int (Z.of_nat k * ps) = true ->
  exists pages,
    Forall2 (fun pn page =>
               UsersHandler_get db (ArgGiven (Some (Z.of_nat pn))) (ArgGiven (Some ps))
               = inr (users_response page))
      (seq 1 k) pages
    /\ List.concat pages
       = firstn (k * Z.to_nat ps) (order_by_created_at_desc (users db)).
Proof.
  intros Hps. induction k as [|k IH]; intros Hk.
  - exists []. split; [constructor|reflexivity].
  - destruct IH as (pages & Hpages & Hcat).
    { apply (sqlite_int_between _ (Z.of_nat (S k) * ps)); auto. nia. }
    exists (List.app pages [limit_offset ps (Z.of_nat k * ps)
                         (order_by_created_at_desc (users db))]).
    split.
    + rewrite seq_S. apply Forall2_app; auto.
      constructor; [|constructor].
      replace (Z.of_nat k * ps) with ((Z.of_nat (1 + k) - 1) * ps) by nia.
      apply UsersHandler_get_page.
      * destruct k as [|k']; [|apply (sqlite_int_between _ (Z.of_nat (S (S k')) * ps));
                                auto; nia].
        replace ps with (Z.of_nat 1 * ps) by lia. exact Hk.
      * apply (sqlite_int_between _ (Z.of_nat (S k) * ps)); auto. nia.
    + rewrite concat_app, Hcat. simpl. rewrite app_nil_r.
      unfold limit_offset. destruct (Z.ltb_spec ps 0); [lia|].
      replace (Z.to_nat (Z.of_nat k * ps)) with (k * Z.to_nat ps)%nat by nia.
      replace (Z.to_nat ps + k * Z.to_nat ps)%nat
        with (k * Z.to_nat ps + Z.to_nat ps)%nat by lia.
      symmetry. apply firstn_plus.
Qed.

Lemma user_pages_tile_witness :
  exists pages,
    Forall2 (fun pn page =>
               UsersHandler_get
                 (run init_db [PostUsers (Some "Ann") 5; PostUsers (Some "Bob") 9;
                               PostUsers (Some "Cid") 7])
                 (ArgGiven (Some (Z.of_nat pn))) (ArgGiven (Some 2))
               = inr (users_response page))
      (seq 1 2) pages
    /\ List.concat pages
       = firstn (2 * Z.to_nat 2)
           (order_by_created_at_desc
              (users (run init_db [PostUsers (Some "Ann") 5; PostUsers (Some "Bob") 9;
                                   PostUsers (Some "Cid") 7]))).
Proof.
  apply (user_pages_tile
           (run init_db [PostUsers (Some "Ann") 5; PostUsers (Some "Bob") 9;
                         PostUsers (Some "Cid") 7]) 2 2);
    [lia | reflexivity].
Defined.

(** X21. A first page at least as large as the table shows every stored
    user exactly once, newest first: ordering loses no row and repeats
    none. *)
Theorem first_page_shows_all_users db ps :
  Z.of_nat (List.length (users db)) <= ps ->
  sqlite_int ps = true ->
  exists page,
    UsersHandler_get db (ArgGiven (Some 1)) (ArgGiven (Some ps))
    = inr (users_response page)
    /\ Permutation page (users db)
    /\ newest_first page.
Proof.
  intros Hlen Hint.
  exists (order_by_created_at_desc (users db)).
  split; [|split; [apply order_by_perm|apply order_by_sorted]].
  rewrite UsersHandler_get_page by (auto; reflexivity).
  do 2 f_equal. unfold limit_offset.
  destruct (Z.ltb_spec ps 0); [lia|]. simpl.
  apply firstn_all2.
  rewrite (Permutation_length (order_by_perm (users db))). lia.
Qed.

Lemma first_page_shows_all_users_witness :
  exists page,
    UsersHandler_get
      (run init_db [PostUsers (Some "Ann") 5; PostUsers (Some "Bob") 9])
      (ArgGiven (Some 1)) (ArgGiven (Some 10))
    = inr (users_response page)
    /\ Permutation page
         (users (run init_db [PostUsers (Some "Ann") 5; PostUsers (Some "Bob") 9]))
    /\ newest_first page.
Proof.
  apply (first_page_shows_all_users
           (run init_db [PostUsers (Some "Ann") 5; PostUsers (Some "Bob") 9]) 10);
    [simpl; lia | reflexivity].
Defined.

(** X22. The arguments of [GET /users] are checked in two places: an
    argument that is not an integer is refused with 400 "Invalid
    page_num or page_size."; integers whose page size or offset SQLite
    cannot take are not caught, and the request ends in 500 with the
    phrase of 500. *)
Theorem get_users_argument_errors db :
  (forall page_num page_size,
     page_num = ArgGiven None \/ page_size = ArgGiven None ->
     snd (handle db (GetUsers page_num page_size))
     = Some {| status := 400;
               payload := error_envelope "Invalid page_num or page_size." |})
  /\ (forall pn ps,
        sqlite_int ps = false \/ sqlite_int ((pn - 1) * ps) = false ->
        snd (handle db (GetUsers (ArgGiven (Some pn)) (ArgGiven (Some ps))))
        = Some {| status := 500;
                  payload := error_envelope "Internal Server Error" |}).
Proof.
  split.
  - intros page_num page_size [->| ->]; simpl; unfold UsersHandler_get; simpl.
    + reflexivity.
    + destruct page_num as [|[n|]]; reflexivity.
  - intros pn ps H. simpl. unfold UsersHandler_get, select_page, bind_int. simpl.
    destruct (sqlite_int ps) eqn:H1; simpl.
    + destruct H as [H|H]; [discriminate|]. rewrite H. reflexivity.
    + reflexivity.
Qed.

Lemma get_users_argument_errors_witness :
  snd (handle init_db (GetUsers (ArgGiven None) ArgMissing))
  = Some {| status := 400;
            payload := error_envelope "Invalid page_num or page_size." |}
  /\ snd (handle init_db (GetUsers (ArgGiven (Some 1)) (ArgGiven (Some (2 ^ 63)))))
     = Some {| status := 500;
               payload := error_envelope "Internal Server Error" |}.
Proof.
  destruct (get_users_argument_errors init_db) as [H1 H2].
  split.
  - apply H1. left. reflexivity.
  - apply H2. left. reflexivity.
Defined.

Lemma order_by_newest r acc : forall rows,
  Forall (fun row => created_at row < created_at r) rows ->
  fold_right insert_desc (r :: acc) rows = r :: fold_right insert_desc acc rows.
Proof.
  induction 1 as [|a rows Ha _ IH]; simpl; auto.
  rewrite IH. simpl.
  destruct (Z.leb_spec (created_at r) (created_at a)); [lia|reflexivity].
Qed.

(** X23. A user created with a clock reading later than that of every
    stored user is the first of [GET /users], on any first page of at
    least one row. *)
Theorem newest_user_is_listed_first db name_arg time_now db' r ps :
  Forall (fun row => created_at row < time_now) (users db) ->
  UsersHandler_post db name_arg time_now = (db', inr r) ->
  status r = 201 ->
  1 <= ps ->
  sqlite_int ps = true ->
  exists row rest,
    r = created_response row
    /\ UsersHandler_get db' (ArgGiven (Some 1)) (ArgGiven (Some ps))
       = inr (users_response (row :: rest)).
Proof.
  intros Hold H Hs Hps Hint.
  unfold UsersHandler_post in H.
  destruct name_arg as [[|c n]|];
    try (injection H as Hdb Hr; subst; simpl in Hs; lia).
  destruct (insert_user db (String c n) time_now time_now) as [e|[db1 rowid]] eqn:Hi;
    try (injection H as Hdb Hr; subst; simpl in Hs; lia).
  apply insert_user_ok in Hi as (_ & _ & -> & ->).
  injection H as Hdb Hr. subst db' r.
  set (row := {| id := last_rowid db + 1; name := String c n;
                 created_at := time_now; updated_at := time_now |}).
  exists row, (firstn (Z.to_nat ps - 1) (order_by_created_at_desc (users db))).
  split; [reflexivity|].
  rewrite UsersHandler_get_page by (auto; reflexivity).
  do 2 f_equal. unfold limit_offset, order_by_created_at_desc. simpl users.
  destruct (Z.ltb_spec ps 0); [lia|]. simpl skipn.
  rewrite fold_right_app. simpl fold_right at 2.
  rewrite order_by_newest by exact Hold.
  destruct (Z.to_nat ps) as [|m] eqn:Hm; [lia|].
  simpl. rewrite Nat.sub_0_r. reflexivity.
Qed.

Lemma newest_user_is_listed_first_witness :
  exists row rest,
    created_response (Worlds.row_of 2 "User B" 1700000000010000)
    = created_response row
    /\ UsersHandler_get
         (run init_db [PostUsers (Some "User A") 1700000000000000;
                       PostUsers (Some "User B") 1700000000010000])
         (ArgGiven (Some 1)) (ArgGiven (Some 10))
       = inr (users_response (row :: rest)).
Proof.
  apply (newest_user_is_listed_first
           (run init_db [PostUsers (Some "User A") 1700000000000000])
           (Some "User B") 1700000000010000
           (run init_db [PostUsers (Some "User A") 1700000000000000;
                         PostUsers (Some "User B") 1700000000010000])
           _ 10);
    [repeat constructor | reflexivity | reflexivity | lia | reflexivity].
Defined.
